(** * Crownstone light platform: brightness scales and channel dispatch

    A shallow embedding of [homeassistant/components/crownstone/light.py]:
    the two brightness conversions, which go through [numpy.interp] on
    IEEE-754 binary64 numbers and Python's [int()], and the commands
    [async_turn_on] / [async_turn_off], which talk to a USB dongle or to
    the Crownstone cloud and update the device state afterwards.  Further
    on come the platform setup [async_setup_entry], the entity's read-only
    properties, [device_info] of devices.py and the serial port helpers of
    helpers.py. *)

From Stdlib Require Import Ascii ZArith List String Bool Lia.
From Stdlib Require Import Floats.SpecFloat.
Import ListNotations.
Local Open Scope Z_scope.

(** ** Binary64 arithmetic

    Python floats and [numpy.float64] are IEEE-754 binary64 numbers.  They
    are modelled by [spec_float] with a 53 bit mantissa, every operation
    rounding to nearest, ties to even. *)
Module F64.

Definition prec : Z := 53.
Definition emax : Z := 1024.

Definition t := spec_float.

(** Conversion of a Python [int] to a double. *)
Definition of_int (n : Z) : t := binary_normalize prec emax n 0 false.

Definition add : t -> t -> t := SFadd prec emax.
Definition sub : t -> t -> t := SFsub prec emax.
Definition mul : t -> t -> t := SFmul prec emax.
Definition div : t -> t -> t := SFdiv prec emax.

Definition eqb : t -> t -> bool := SFeqb.
Definition ltb : t -> t -> bool := SFltb.
Definition gtb (x y : t) : bool := SFltb y x.
Definition geb (x y : t) : bool := SFleb y x.

Definition is_nan (x : t) : bool :=
  match x with S754_nan => true | _ => false end.

(** Python's [int(x)] on a float: truncation towards zero; infinities and
    NaN raise (OverflowError, ValueError), here [None]. *)
Definition to_int (x : t) : option Z :=
  match x with
  | S754_zero _ => Some 0
  | S754_finite s m e =>
      let a := match e with
               | Zneg p => Z.shiftr (Zpos m) (Zpos p)
               | _ => Z.shiftl (Zpos m) e
               end in
      Some (if s then Z.opp a else a)
  | S754_infinity _ | S754_nan => None
  end.

End F64.

(** ** numpy.interp

    One-dimensional piecewise linear interpolation of a scalar [x] over the
    sample points [xp] with values [fp], as numpy's [arr_interp] computes
    it (default [left] and [right]). *)
Module Numpy.

(** [for (i = 1; i < len && key >= arr[i]; ++i);] of
    [binary_search_with_guess], the search numpy runs on arrays of at most
    four points; [rest] is [arr] from index [i] on. *)
Fixpoint linear_search (key : F64.t) (rest : list F64.t) (i : nat) : nat :=
  match rest with
  | [] => i
  | a :: rest' => if F64.geb key a then linear_search key rest' (S i) else i
  end.

(** The index [j] of the interval of [key]: [None] for the C code's -1
    (left of the samples), [Some (length arr)] right of them. *)
Definition binary_search_with_guess (key : F64.t) (arr : list F64.t)
  : option nat :=
  let len := List.length arr in
  if F64.gtb key (nth (len - 1) arr S754_nan) then Some len
  else if F64.ltb key (nth 0 arr S754_nan) then None
  else Some (linear_search key (tl arr) 1 - 1)%nat.

Definition interp (x : F64.t) (xp fp : list F64.t) : F64.t :=
  let lenxp := List.length xp in
  let dx j := nth j xp S754_nan in
  let dy j := nth j fp S754_nan in
  let lval := dy 0%nat in
  let rval := dy (lenxp - 1)%nat in
  if F64.is_nan x then x
  else
    match binary_search_with_guess x xp with
    | None => lval
    | Some j =>
        if Nat.eqb j lenxp then rval
        else if Nat.eqb j (lenxp - 1) then dy j
        else if F64.eqb (dx j) x then dy j
        else
          let slope :=
            F64.div (F64.sub (dy (S j)) (dy j)) (F64.sub (dx (S j)) (dx j)) in
          let r := F64.add (F64.mul slope (F64.sub x (dx j))) (dy j) in
          if F64.is_nan r then
            let r' :=
              F64.add (F64.mul slope (F64.sub x (dx (S j)))) (dy (S j)) in
            if F64.is_nan r' && F64.eqb (dy j) (dy (S j)) then dy j else r'
          else r
    end.

End Numpy.

(** ** The conversions of light.py *)

(** [int(numpy.interp(value, [0, 100], [0, 255]))] *)
Definition crownstone_state_to_hass (value : Z) : option Z :=
  F64.to_int
    (Numpy.interp (F64.of_int value)
                  (map F64.of_int [0; 100]) (map F64.of_int [0; 255])).

(** [int(numpy.interp(value, [0, 255], [0, 100]))] *)
Definition hass_to_crownstone_state (value : Z) : option Z :=
  F64.to_int
    (Numpy.interp (F64.of_int value)
                  (map F64.of_int [0; 255]) (map F64.of_int [0; 100])).

(** ** The reference conversions of the specification

    [round(v * 255 / 100)] and [round(v * 100 / 255)]: the quotient rounded
    to the nearest integer, a tie going to the even neighbour as Python's
    [round] does. *)
Definition round_div (n d : Z) : Z :=
  let q := n / d in
  match 2 * (n mod d) ?= d with
  | Lt => q
  | Gt => q + 1
  | Eq => if Z.even q then q else q + 1
  end.

Definition to_external (v : Z) : Z := round_div (v * 255) 100.
Definition to_internal (v : Z) : Z := round_div (v * 100) 255.

(** ** Devices, channels and effects *)

(** The cloud library's [Crownstone] object, shared with the platform: the
    fields light.py reads and the [state] it assigns. *)
Record Crownstone := {
  unique_id : Z;
  state : Z;
  dimming_enabled : bool
}.

Definition set_state (d : Crownstone) (v : Z) : Crownstone :=
  {| unique_id := unique_id d; state := v;
     dimming_enabled := dimming_enabled d |}.

(** The dongle driver's [CrownstoneUart]; [is_ready] is what its readiness
    check answers when a command runs. *)
Record CrownstoneUart := { is_ready : bool }.

(** [CrownstoneEntity]: the optional dongle handle given at construction
    ([None] when the Crownstone is in no sphere with a USB dongle). *)
Record CrownstoneEntity := { usb : option CrownstoneUart }.

(** Exceptions: the cloud library's [CrownstoneAbilityError], and every
    other class (network, serial, ...) by its name. *)
Inductive exn :=
| CrownstoneAbilityError (msg : string)
| OtherError (cls msg : string).

Definition is_ability_error (e : exn) : bool :=
  match e with CrownstoneAbilityError _ => true | OtherError _ _ => false end.

(** Operations of the two channels. *)
Inductive call :=
| dim_crownstone (uid level : Z)
| switch_crownstone (uid : Z) (on : bool)
| async_set_brightness (level : Z)
| device_async_turn_on
| device_async_turn_off.

Inductive channel := Local | Remote.

Definition channel_of (c : call) : channel :=
  match c with
  | dim_crownstone _ _ | switch_crownstone _ _ => Local
  | async_set_brightness _ | device_async_turn_on | device_async_turn_off =>
      Remote
  end.

(** What a command does to the outside, in order: a channel operation, the
    state-changed signal [async_write_ha_state] (with the device state the
    host reads at that moment), a line of [_LOGGER.error]. *)
Inductive event :=
| Call (c : call)
| WriteHaState (s : Z)
| LoggerError (e : exn).

Inductive result (A : Type) :=
| Return (a : A)
| Raise (e : exn).
Arguments Return {A} a.
Arguments Raise {A} e.

(** A computation runs on the shared device object and yields a result or
    an exception, the device as it leaves it, and the events it emitted. *)
Definition M (A : Type) : Type := Crownstone -> result A * Crownstone * list event.

Definition ret {A} (a : A) : M A := fun d => (Return a, d, []).

Definition raise {A} (e : exn) : M A := fun d => (Raise e, d, []).

Definition bind {A B} (m : M A) (k : A -> M B) : M B :=
  fun d =>
    match m d with
    | (Return a, d', evs) =>
        let '(r, d'', evs') := k a d' in (r, d'', evs ++ evs')
    | (Raise e, d', evs) => (Raise e, d', evs)
    end.

Notation "x <- m ;; k" := (bind m (fun x => k))
  (at level 61, m at next level, right associativity).
Notation "m ;; k" := (bind m (fun _ => k))
  (at level 61, right associativity).

(** [try: body except <handles> as e: handler e] *)
Definition try_except {A} (body : M A) (handles : exn -> bool)
  (handler : exn -> M A) : M A :=
  fun d =>
    match body d with
    | (Raise e, d', evs) =>
        if handles e then
          let '(r, d'', evs') := handler e d' in (r, d'', evs ++ evs')
        else (Raise e, d', evs)
    | out => out
    end.

Definition emit (e : event) : M unit := fun d => (Return tt, d, [e]).

Definition get_device : M Crownstone := fun d => (Return d, d, []).

(** [self.device.state = v] *)
Definition assign_state (v : Z) : M unit :=
  fun d => (Return tt, set_state d v, []).

(** [self.async_write_ha_state()] *)
Definition async_write_ha_state : M unit :=
  d <- get_device ;; emit (WriteHaState (state d)).

(** [_LOGGER.error(e)] *)
Definition logger_error (e : exn) : M unit := emit (LoggerError e).

(** An [int(...)] that raised. *)
Definition of_option {A} (o : option A) : M A :=
  match o with
  | Some a => ret a
  | None => raise (OtherError "ValueError" "cannot convert float to integer")
  end.

(** [brightness] *)
Definition brightness (d : Crownstone) : option Z :=
  crownstone_state_to_hass (state d).

(** [is_on] *)
Definition is_on (d : Crownstone) : option bool :=
  option_map (fun b => b >? 0) (crownstone_state_to_hass (state d)).

Section Platform.

(** How the channels answer: [None] when the operation returns, [Some e]
    when it raises [e]. *)
Variable env : call -> option exn.

Definition perform (c : call) : M unit :=
  emit (Call c) ;;
  match env c with
  | None => ret tt
  | Some e => raise e
  end.

(** [await self.hass.async_add_executor_job(partial(f, ...))] *)
Definition async_add_executor_job (c : call) : M unit := perform c.

(** [await self.device.<coroutine>(...)] *)
Definition await (c : call) : M unit := perform c.

(** [self.usb is not None and self.usb.is_ready()] *)
Definition usb_is_ready (self : CrownstoneEntity) : bool :=
  match usb self with
  | None => false
  | Some u => is_ready u
  end.

(** [async_turn_on]; [kwargs] is the value under
    [ATTR_BRIGHTNESS], if the key is there. *)
Definition async_turn_on (self : CrownstoneEntity) (kwargs : option Z)
  : M unit :=
  match kwargs with
  | Some attr_brightness =>
      try_except
        ((if usb_is_ready self then
            d <- get_device ;;
            level <- of_option (hass_to_crownstone_state attr_brightness) ;;
            async_add_executor_job (dim_crownstone (unique_id d) level)
          else
            level <- of_option (hass_to_crownstone_state attr_brightness) ;;
            await (async_set_brightness level)) ;;
         level <- of_option (hass_to_crownstone_state attr_brightness) ;;
         assign_state level ;;
         async_write_ha_state)
        is_ability_error
        (fun ability_error => logger_error ability_error)
  | None =>
      if usb_is_ready self then
        d <- get_device ;;
        async_add_executor_job (switch_crownstone (unique_id d) true) ;;
        assign_state 100 ;;
        async_write_ha_state
      else
        await device_async_turn_on ;;
        assign_state 100 ;;
        async_write_ha_state
  end.

(** [async_turn_off] *)
Definition async_turn_off (self : CrownstoneEntity) : M unit :=
  (if usb_is_ready self then
     d <- get_device ;;
     async_add_executor_job (switch_crownstone (unique_id d) false)
   else
     await device_async_turn_off) ;;
  assign_state 0 ;;
  async_write_ha_state.

(** The three commands of the controller. *)
Inductive command :=
| turn_on
| turn_off
| set_brightness (level : Z).

Definition run (self : CrownstoneEntity) (c : command) : M unit :=
  match c with
  | turn_on => async_turn_on self None
  | turn_off => async_turn_off self
  | set_brightness level => async_turn_on self (Some level)
  end.

End Platform.

(** The parts of what a command leaves behind. *)
Definition result_of {A} (o : result A * Crownstone * list event) : result A :=
  fst (fst o).
Definition device_of {A} (o : result A * Crownstone * list event) : Crownstone :=
  snd (fst o).
Definition events_of {A} (o : result A * Crownstone * list event) : list event :=
  snd o.

(** A brightness command carries a level of the host's scale. *)
Definition in_range (c : command) : Prop :=
  match c with
  | set_brightness level => 0 <= level <= 255
  | turn_on | turn_off => True
  end.

(** The round trips through both scales. *)
Definition hass_round_trip (v : Z) : option Z :=
  match hass_to_crownstone_state v with
  | Some i => crownstone_state_to_hass i
  | None => None
  end.

Definition crownstone_round_trip (v : Z) : option Z :=
  match crownstone_state_to_hass v with
  | Some i => hass_to_crownstone_state i
  | None => None
  end.

(** The state each command aims at. *)
Definition target_state (c : command) : option Z :=
  match c with
  | turn_on => Some 100
  | turn_off => Some 0
  | set_brightness level => hass_to_crownstone_state level
  end.

(** Whether the command has an [except] clause for [e]: only the
    brightness branch of [async_turn_on] has one, for
    [CrownstoneAbilityError]. *)
Definition caught (c : command) (e : exn) : bool :=
  match c with
  | set_brightness _ => is_ability_error e
  | turn_on | turn_off => false
  end.

(** Sample worlds: every operation returns; every operation is refused for
    a disabled ability; every operation fails on the transport. *)
Definition all_return : call -> option exn := fun _ => None.
Definition ability_disabled : call -> option exn :=
  fun _ => Some (CrownstoneAbilityError "dimming is not enabled").
Definition transport_down : call -> option exn :=
  fun _ => Some (OtherError "CrownstoneConnectionError" "timeout").

Definition plug : Crownstone :=
  {| unique_id := 7; state := 30; dimming_enabled := false |}.
Definition cloud_only : CrownstoneEntity := {| usb := None |}.
Definition unplugged_dongle : CrownstoneEntity :=
  {| usb := Some {| is_ready := false |} |}.
Definition with_dongle : CrownstoneEntity :=
  {| usb := Some {| is_ready := true |} |}.

(** ** const.py *)

(** A Python dict as its items in insertion order; [dict_get] is
    [d.get(k)], [dict_mem] is [k in d]. *)
Fixpoint dict_get {K V} (eqb : K -> K -> bool) (d : list (K * V)) (k : K)
  : option V :=
  match d with
  | [] => None
  | (k', v) :: d' => if eqb k' k then Some v else dict_get eqb d' k
  end.

Definition dict_mem {K V} (eqb : K -> K -> bool) (k : K) (d : list (K * V))
  : bool :=
  match dict_get eqb d k with
  | Some _ => true
  | None => false
  end.

Definition DOMAIN : string := "crownstone".
Definition CROWNSTONE_SUFFIX : string := "crownstone".

Definition ABILITY_STATE : list (bool * string) :=
  [(true, "Enabled"%string); (false, "Disabled"%string)].

Definition CROWNSTONE_INCLUDE_TYPES : list (string * string) :=
  [("PLUG"%string, "Plug"%string);
   ("BUILTIN"%string, "Built-in"%string);
   ("BUILTIN_ONE"%string, "Built-in One"%string)].

Definition CROWNSTONE_USB : string := "CROWNSTONE_USB".

(** ** The cloud data and the entities made from it *)

(** An entry of a Crownstone's [abilities]. *)
Record Ability := { is_enabled : bool }.

(** The descriptive side of the cloud library's [Crownstone] object, as
    setup, [device_info] and the state attributes read it; the commands
    above need its uid and state only. *)
Record CrownstoneData := {
  cloud_id : string;
  name : string;
  type : string;
  sw_version : string;
  abilities : list (string * Ability)
}.

(** A sphere of [manager.cloud.cloud_data]. *)
Record Sphere := {
  sphere_cloud_id : string;
  crownstones : list CrownstoneData
}.

(** [CrownstoneEntity(crownstone_data, usb)] as constructed: [self.device]
    set by [CrownstoneDevice.__init__] and the light platform's part. *)
Record Entity := {
  device : CrownstoneData;
  light : CrownstoneEntity
}.

(** [str(x)] of an optional string. *)
Definition str (o : option string) : string :=
  match o with
  | Some s => s
  | None => "None"
  end.

(** [a == b] for a string and an optional string. *)
Definition eq_optional (a : string) (b : option string) : bool :=
  match b with
  | Some b' => String.eqb a b'
  | None => false
  end.

(** The first pair of loops of [async_setup_entry]: the sphere a Crownstone
    USB belongs to. *)
Definition crownstone_usb_sphere_id (cloud_data : list Sphere)
  : option string :=
  fold_left
    (fun id sphere =>
       fold_left
         (fun id crownstone =>
            if String.eqb (type crownstone) CROWNSTONE_USB
            then Some (sphere_cloud_id sphere)
            else id)
         (crownstones sphere) id)
    cloud_data None.

(** [async_setup_entry]: the entities handed to [async_add_entities];
    [uart] is [manager.uart]. *)
Definition async_setup_entry (cloud_data : list Sphere)
  (uart : option CrownstoneUart) : list Entity :=
  let usb_sphere_id := crownstone_usb_sphere_id cloud_data in
  fold_left
    (fun entities sphere =>
       fold_left
         (fun entities crownstone =>
            if dict_mem String.eqb (type crownstone) CROWNSTONE_INCLUDE_TYPES
            then
              if eq_optional (sphere_cloud_id sphere) usb_sphere_id
              then entities ++
                   [{| device := crownstone; light := {| usb := uart |} |}]
              else entities ++
                   [{| device := crownstone; light := {| usb := None |} |}]
            else entities)
         (crownstones sphere) entities)
    cloud_data [].

(** The two tests of [async_setup_entry] on a Crownstone's type, and the
    handle the entities of [sphere] are constructed with. *)
Definition is_usb (c : CrownstoneData) : bool :=
  String.eqb (type c) CROWNSTONE_USB.

Definition included (c : CrownstoneData) : bool :=
  dict_mem String.eqb (type c) CROWNSTONE_INCLUDE_TYPES.

Definition handle_for (cloud_data : list Sphere) (uart : option CrownstoneUart)
  (sphere : Sphere) : option CrownstoneUart :=
  if eq_optional (sphere_cloud_id sphere) (crownstone_usb_sphere_id cloud_data)
  then uart else None.

(** Sample cloud data: a home with a plug and a dongle, an office with a
    built-in Crownstone, a shed with a dongle of its own. *)
Definition lamp : CrownstoneData :=
  {| cloud_id := "5f0a"; name := "Lamp"; type := "PLUG"; sw_version := "5.4.0";
     abilities := [("dimming"%string, {| is_enabled := true |});
                   ("switchcraft"%string, {| is_enabled := false |});
                   ("tapToToggle"%string, {| is_enabled := false |})] |}.
Definition dongle : CrownstoneData :=
  {| cloud_id := "5f0b"; name := "USB"; type := "CROWNSTONE_USB";
     sw_version := "5.4.0"; abilities := [] |}.
Definition ceiling : CrownstoneData :=
  {| cloud_id := "5f0c"; name := "Ceiling"; type := "BUILTIN_ONE";
     sw_version := "5.4.0";
     abilities := [("dimming"%string, {| is_enabled := false |})] |}.
Definition home : Sphere :=
  {| sphere_cloud_id := "sphere-home"; crownstones := [lamp; dongle] |}.
Definition office : Sphere :=
  {| sphere_cloud_id := "sphere-office"; crownstones := [ceiling] |}.
Definition shed : Sphere :=
  {| sphere_cloud_id := "sphere-shed"; crownstones := [dongle] |}.

(** devices.py *)
Module CrownstoneDevice.

(** [cloud_id] *)
Definition cloud_id (self : Entity) : string := cloud_id (device self).

(** The dict [device_info] returns. *)
Record DeviceInfo := {
  identifiers : list (string * string);
  info_name : string;
  manufacturer : string;
  model : string;
  info_sw_version : string
}.

(** [device_info] *)
Definition device_info (self : Entity) : DeviceInfo :=
  {| identifiers := [(DOMAIN, cloud_id self)];
     info_name := name (device self);
     manufacturer := "Crownstone";
     model := str (dict_get String.eqb CROWNSTONE_INCLUDE_TYPES
                            (type (device self)));
     info_sw_version := sw_version (device self) |}.

End CrownstoneDevice.

(** The read-only properties of light.py's [CrownstoneEntity]. *)
Module LightEntity.

(** [name] *)
Definition name (self : Entity) : string := name (device self).

(** [unique_id]: the f-string [cloud_id-CROWNSTONE_SUFFIX]. *)
Definition unique_id (self : Entity) : string :=
  (CrownstoneDevice.cloud_id self ++ "-" ++ CROWNSTONE_SUFFIX)%string.

(** [icon] *)
Definition icon (self : Entity) : string := "mdi:power-socket-de".

(** [should_poll] *)
Definition should_poll (self : Entity) : bool := false.

Section Abilities.

(** The ability keys of crownstone_cloud.const and the feature flag of the
    host's light component, which this repository imports. *)
Variables DIMMING_ABILITY SWITCHCRAFT_ABILITY TAP_TO_TOGGLE_ABILITY : string.
Variable SUPPORT_BRIGHTNESS : Z.

(** [self.device.abilities.get(key).is_enabled]; on a missing key [get]
    answers [None], whose attribute access raises. *)
Definition ability_enabled (self : Entity) (key : string) : result bool :=
  match dict_get String.eqb (abilities (device self)) key with
  | Some a => Return (is_enabled a)
  | None =>
      Raise (OtherError "AttributeError"
               "'NoneType' object has no attribute 'is_enabled'")
  end.

(** [supported_features] *)
Definition supported_features (self : Entity) : result Z :=
  match ability_enabled self DIMMING_ABILITY with
  | Return true => Return SUPPORT_BRIGHTNESS
  | Return false => Return 0
  | Raise e => Raise e
  end.

(** [device_state_attributes]: the dict, in insertion order; an ability
    value is [ABILITY_STATE.get(...)], [None] where that has no entry. *)
Definition device_state_attributes (self : Entity)
  : result (list (string * option string)) :=
  let attributes :=
    if usb_is_ready (light self)
    then [("Switch Method"%string, Some "Crownstone USB Dongle"%string)]
    else [("Switch Method"%string, Some "Crownstone Cloud"%string)] in
  match ability_enabled self DIMMING_ABILITY with
  | Raise e => Raise e
  | Return dimming =>
      let attributes :=
        attributes ++ [("Dimming"%string, dict_get Bool.eqb ABILITY_STATE dimming)] in
      match ability_enabled self TAP_TO_TOGGLE_ABILITY with
      | Raise e => Raise e
      | Return tap =>
          let attributes :=
            attributes ++
            [("Tap To Toggle"%string, dict_get Bool.eqb ABILITY_STATE tap)] in
          match ability_enabled self SWITCHCRAFT_ABILITY with
          | Raise e => Raise e
          | Return switchcraft =>
              Return
                (attributes ++
                 [("Switchcraft"%string,
                   dict_get Bool.eqb ABILITY_STATE switchcraft)])
          end
      end
  end.

End Abilities.

End LightEntity.

(** ** helpers.py *)

(** The operating system as the helpers see it. *)
Module Os.

(** An [os.DirEntry] of [os.scandir]. *)
Record DirEntry := { path : string; is_symlink : bool }.

(** The file system calls the helpers make; [readlink] raises
    [FileNotFoundError] for a missing link and other [OSError]s besides. *)
Record filesystem := {
  isdir : string -> bool;
  scandir : string -> list DirEntry;
  realpath : string -> string;
  readlink : string -> result string
}.

(** [s.rfind(c)]: the highest index of [c] in [s], -1 when there is none. *)
Fixpoint rfind (s : string) (c : Ascii.ascii) : Z :=
  match s with
  | EmptyString => -1
  | String a s' =>
      let r := rfind s' c in
      if 0 <=? r then r + 1
      else if Ascii.eqb a c then 0 else -1
  end.

(** The slice [s[i:]]. *)
Definition slice_from (s : string) (i : nat) : string :=
  substring i (String.length s - i) s.

(** [posixpath.basename]: [i = p.rfind('/') + 1; return p[i:]]. *)
Definition basename (p : string) : string :=
  let i := rfind p "/"%char + 1 in
  slice_from p (Z.to_nat i).

End Os.

(** [except FileNotFoundError] *)
Definition is_file_not_found (e : exn) : bool :=
  match e with
  | OtherError cls _ => String.eqb cls "FileNotFoundError"
  | CrownstoneAbilityError _ => false
  end.

(** [get_serial_by_id] *)
Definition get_serial_by_id (fs : Os.filesystem) (dev_path : string)
  : string :=
  let by_id := "/dev/serial/by-id"%string in
  if negb (Os.isdir fs by_id) then dev_path
  else
    (fix loop (paths : list string) : string :=
       match paths with
       | [] => dev_path
       | path :: rest =>
           if String.eqb (Os.realpath fs path) dev_path then path
           else loop rest
       end)
      (map Os.path (filter Os.is_symlink (Os.scandir fs by_id))).

(** [get_port] *)
Definition get_port (fs : Os.filesystem) (by_id : string)
  : result (option string) :=
  match Os.readlink fs by_id with
  | Return target => Return (Some (Os.basename target))
  | Raise e => if is_file_not_found e then Return None else Raise e
  end.

(** A sample file system: one by-id link, to the dongle on ttyUSB0, next to
    a plain file. *)
Definition sample_fs : Os.filesystem :=
  {| Os.isdir := fun p => String.eqb p "/dev/serial/by-id";
     Os.scandir := fun p =>
       if String.eqb p "/dev/serial/by-id"
       then [ {| Os.path := "/dev/serial/by-id/README";
                 Os.is_symlink := false |};
              {| Os.path := "/dev/serial/by-id/usb-Crownstone_dongle-if00";
                 Os.is_symlink := true |} ]
       else [];
     Os.realpath := fun p =>
       if String.eqb p "/dev/serial/by-id/usb-Crownstone_dongle-if00"
       then "/dev/ttyUSB0"%string else p;
     Os.readlink := fun p =>
       if String.eqb p "/dev/serial/by-id/usb-Crownstone_dongle-if00"
       then Return "../../ttyUSB0"%string
       else Raise (OtherError "FileNotFoundError"
                              "No such file or directory") |}.

(** ** The conversions, value by value *)

Definition option_Z_eqb (o : option Z) (z : Z) : bool :=
  match o with
  | Some r => r =? z
  | None => false
  end.

Lemma option_Z_eqb_eq o z : option_Z_eqb o z = true -> o = Some z.
Proof.
  destruct o as [r|]; simpl; [|discriminate].
  intros H. apply Z.eqb_eq in H. now subst.
Qed.

(** A boolean property checked on 0, 1, ..., n-1 holds on that interval. *)
Lemma forallb_upto (P : Z -> bool) (n : nat) :
  forallb P (map Z.of_nat (seq 0 n)) = true ->
  forall v, 0 <= v < Z.of_nat n -> P v = true.
Proof.
  intros H v Hv.
  rewrite forallb_forall in H. apply H.
  rewrite <- (Z2Nat.id v) by lia.
  apply in_map, in_seq. lia.
Qed.

Lemma crownstone_state_to_hass_floor v :
  0 <= v <= 100 -> crownstone_state_to_hass v = Some (v * 255 / 100).
Proof.
  intros Hv. apply option_Z_eqb_eq.
  apply (forallb_upto
           (fun v => option_Z_eqb (crownstone_state_to_hass v) (v * 255 / 100))
           101); [vm_compute; reflexivity | lia].
Qed.

Lemma hass_to_crownstone_state_floor v :
  0 <= v <= 255 -> hass_to_crownstone_state v = Some (v * 100 / 255).
Proof.
  intros Hv. apply option_Z_eqb_eq.
  apply (forallb_upto
           (fun v => option_Z_eqb (hass_to_crownstone_state v) (v * 100 / 255))
           256); [vm_compute; reflexivity | lia].
Qed.

(** C2, as the specification words it, fails at 1: the code yields 2 where
    [round(1 * 255 / 100)] is 3. *)
Lemma C2_round_counterexample :
  0 <= 1 <= 100 /\ crownstone_state_to_hass 1 <> Some (to_external 1).
Proof. split; [lia | vm_compute; discriminate]. Qed.

(** C2 (amended): on [0,100] [crownstone_state_to_hass v] is the integer
    part of [v * 255 / 100], and on [0,255] [hass_to_crownstone_state v] is
    the integer part of [v * 100 / 255]: [int()] cuts the fraction off
    instead of rounding. *)
Theorem C2_conversions_truncate (v : Z) :
  (0 <= v <= 100 -> crownstone_state_to_hass v = Some (v * 255 / 100)) /\
  (0 <= v <= 255 -> hass_to_crownstone_state v = Some (v * 100 / 255)).
Proof.
  split.
  - apply crownstone_state_to_hass_floor.
  - apply hass_to_crownstone_state_floor.
Qed.

Lemma C2_conversions_truncate_witness :
  crownstone_state_to_hass 99 = Some 252 /\
  hass_to_crownstone_state 254 = Some 99.
Proof.
  split.
  - apply (proj1 (C2_conversions_truncate 99)). lia.
  - apply (proj2 (C2_conversions_truncate 254)). lia.
Defined.

(** C3, as stated, fails at 2: the host level 2 goes to the Crownstone
    level 0 and comes back as 0. *)
Lemma C3_within_one_counterexample :
  0 <= 2 <= 255 /\
  ~ (exists r, hass_round_trip 2 = Some r /\ Z.abs (r - 2) <= 1).
Proof.
  split; [lia|]. intros [r [Hr Habs]].
  vm_compute in Hr. injection Hr as <-. vm_compute in Habs. now apply Habs.
Qed.

(** C3 (amended): for every [v] in [0,255],
    [crownstone_state_to_hass (hass_to_crownstone_state v)] differs from
    [v] by at most 3, and is never above [v]. *)
Theorem C3_hass_round_trip_within_three (v : Z) :
  0 <= v <= 255 ->
  exists r, hass_round_trip v = Some r /\ Z.abs (r - v) <= 3 /\ r <= v.
Proof.
  intros Hv. unfold hass_round_trip.
  rewrite (hass_to_crownstone_state_floor v Hv).
  assert (Hi : 0 <= v * 100 / 255 <= 100).
  { split; [apply Z.div_pos; lia | apply Z.div_le_upper_bound; lia]. }
  rewrite (crownstone_state_to_hass_floor _ Hi).
  eexists; split; [reflexivity|].
  pose proof (Z.div_mod (v * 100) 255 ltac:(lia)) as E1.
  pose proof (Z.mod_pos_bound (v * 100) 255 ltac:(lia)) as B1.
  pose proof (Z.div_mod (v * 100 / 255 * 255) 100 ltac:(lia)) as E2.
  pose proof (Z.mod_pos_bound (v * 100 / 255 * 255) 100 ltac:(lia)) as B2.
  lia.
Qed.

Lemma C3_hass_round_trip_within_three_witness :
  exists r, hass_round_trip 5 = Some r /\ Z.abs (r - 5) <= 3 /\ r <= 5.
Proof. apply (C3_hass_round_trip_within_three 5). lia. Defined.

(** C4: for every [v] in [0,100],
    [hass_to_crownstone_state (crownstone_state_to_hass v)] differs from
    [v] by at most 1. *)
Theorem C4_crownstone_round_trip_within_one (v : Z) :
  0 <= v <= 100 ->
  exists r, crownstone_round_trip v = Some r /\ Z.abs (r - v) <= 1.
Proof.
  intros Hv. unfold crownstone_round_trip.
  rewrite (crownstone_state_to_hass_floor v Hv).
  assert (Hi : 0 <= v * 255 / 100 <= 255).
  { split; [apply Z.div_pos; lia | apply Z.div_le_upper_bound; lia]. }
  rewrite (hass_to_crownstone_state_floor _ Hi).
  eexists; split; [reflexivity|].
  pose proof (Z.div_mod (v * 255) 100 ltac:(lia)) as E1.
  pose proof (Z.mod_pos_bound (v * 255) 100 ltac:(lia)) as B1.
  pose proof (Z.div_mod (v * 255 / 100 * 100) 255 ltac:(lia)) as E2.
  pose proof (Z.mod_pos_bound (v * 255 / 100 * 100) 255 ltac:(lia)) as B2.
  lia.
Qed.

Lemma C4_crownstone_round_trip_within_one_witness :
  exists r, crownstone_round_trip 33 = Some r /\ Z.abs (r - 33) <= 1.
Proof. apply (C4_crownstone_round_trip_within_one 33). lia. Defined.

(** C5: the ends of both scales are hit exactly:
    [crownstone_state_to_hass] sends 0 to 0 and 100 to 255,
    [hass_to_crownstone_state] sends 0 to 0 and 255 to 100. *)
Theorem C5_endpoints_exact :
  crownstone_state_to_hass 0 = Some 0 /\
  crownstone_state_to_hass 100 = Some 255 /\
  hass_to_crownstone_state 0 = Some 0 /\
  hass_to_crownstone_state 255 = Some 100.
Proof. repeat split; vm_compute; reflexivity. Qed.

(** C10: for a device state in [0,100], [is_on] answers, and answers true
    exactly when the state is above 0. *)
Theorem C10_is_on_iff_positive (d : Crownstone) :
  0 <= state d <= 100 ->
  exists b, is_on d = Some b /\ (b = true <-> 0 < state d).
Proof.
  intros Hs. unfold is_on.
  rewrite (crownstone_state_to_hass_floor _ Hs). simpl.
  eexists; split; [reflexivity|].
  pose proof (Z.div_mod (state d * 255) 100 ltac:(lia)) as E1.
  pose proof (Z.mod_pos_bound (state d * 255) 100 ltac:(lia)) as B1.
  rewrite Z.gtb_lt. lia.
Qed.

Lemma C10_is_on_iff_positive_witness :
  exists b,
    is_on {| unique_id := 7; state := 1; dimming_enabled := false |} = Some b /\
    (b = true <-> 0 < 1).
Proof.
  apply (C10_is_on_iff_positive
           {| unique_id := 7; state := 1; dimming_enabled := false |}).
  simpl. lia.
Defined.

(** ** The commands *)

Lemma usb_is_ready_iff self :
  usb_is_ready self = true <->
  exists u, usb self = Some u /\ is_ready u = true.
Proof.
  unfold usb_is_ready. destruct (usb self) as [u|]; split.
  - intros H. now exists u.
  - intros [u' [E H]]. now injection E as ->.
  - discriminate.
  - intros [u' [E _]]. discriminate.
Qed.

(** Unfolds the monad, leaving the channel's answer to be split on. *)
Ltac run_monad :=
  cbv beta iota zeta delta
    [bind ret raise try_except emit get_device assign_state
     async_write_ha_state logger_error of_option perform
     async_add_executor_job await app].

(** What each command does, by the channel's answer. *)
Lemma run_turn_on env self d :
  run env self turn_on d =
  let c := if usb_is_ready self
           then switch_crownstone (unique_id d) true
           else device_async_turn_on in
  match env c with
  | None => (Return tt, set_state d 100, [Call c; WriteHaState 100])
  | Some e => (Raise e, d, [Call c])
  end.
Proof.
  unfold run, async_turn_on.
  destruct (usb_is_ready self); run_monad;
    match goal with |- context [env ?c] => destruct (env c) end; reflexivity.
Qed.

Lemma run_turn_off env self d :
  run env self turn_off d =
  let c := if usb_is_ready self
           then switch_crownstone (unique_id d) false
           else device_async_turn_off in
  match env c with
  | None => (Return tt, set_state d 0, [Call c; WriteHaState 0])
  | Some e => (Raise e, d, [Call c])
  end.
Proof.
  unfold run, async_turn_off.
  destruct (usb_is_ready self); run_monad;
    match goal with |- context [env ?c] => destruct (env c) end; reflexivity.
Qed.

Lemma run_set_brightness env self d level lvl :
  hass_to_crownstone_state level = Some lvl ->
  run env self (set_brightness level) d =
  let c := if usb_is_ready self
           then dim_crownstone (unique_id d) lvl
           else async_set_brightness lvl in
  match env c with
  | None => (Return tt, set_state d lvl, [Call c; WriteHaState lvl])
  | Some e =>
      if is_ability_error e then (Return tt, d, [Call c; LoggerError e])
      else (Raise e, d, [Call c])
  end.
Proof.
  intros H. unfold run, async_turn_on. rewrite H.
  destruct (usb_is_ready self); run_monad;
    match goal with |- context [env ?c] => destruct (env c) as [e|] end;
    try reflexivity; destruct e; reflexivity.
Qed.

(** Every command in one statement: it makes one channel operation [c],
    on the dongle exactly when the dongle is there and ready, and what
    follows depends on how [c] ends. *)
Lemma run_spec env self d cmd :
  in_range cmd ->
  exists c t,
    target_state cmd = Some t /\
    channel_of c = (if usb_is_ready self then Local else Remote) /\
    (usb_is_ready self = false ->
     c = match cmd with
         | turn_on => device_async_turn_on
         | turn_off => device_async_turn_off
         | set_brightness _ => async_set_brightness t
         end) /\
    run env self cmd d =
    match env c with
    | None => (Return tt, set_state d t, [Call c; WriteHaState t])
    | Some e =>
        if caught cmd e then (Return tt, d, [Call c; LoggerError e])
        else (Raise e, d, [Call c])
    end.
Proof.
  intros Hr. destruct cmd as [| |level].
  - exists (if usb_is_ready self then switch_crownstone (unique_id d) true
            else device_async_turn_on), 100.
    split; [reflexivity|]. split; [now destruct (usb_is_ready self)|].
    split; [now intros ->|]. apply run_turn_on.
  - exists (if usb_is_ready self then switch_crownstone (unique_id d) false
            else device_async_turn_off), 0.
    split; [reflexivity|]. split; [now destruct (usb_is_ready self)|].
    split; [now intros ->|]. apply run_turn_off.
  - simpl in Hr. pose proof (hass_to_crownstone_state_floor level Hr) as E.
    exists (if usb_is_ready self
            then dim_crownstone (unique_id d) (level * 100 / 255)
            else async_set_brightness (level * 100 / 255)),
           (level * 100 / 255).
    split; [exact E|]. split; [now destruct (usb_is_ready self)|].
    split; [now intros ->|]. now apply run_set_brightness.
Qed.

(** C1: every command makes exactly one channel operation, and that
    operation goes to the dongle if and only if the entity has a dongle
    handle whose [is_ready()] is true; otherwise it goes to the cloud.  With
    a handle that is not ready, [turn_off] calls the cloud's turn-off. *)
Theorem C1_channel_selection env self d cmd :
  in_range cmd ->
  exists c rest,
    events_of (run env self cmd d) = Call c :: rest /\
    (forall c', ~ In (Call c') rest) /\
    (channel_of c = Local <->
     exists u, usb self = Some u /\ is_ready u = true) /\
    (channel_of c = Remote <->
     ~ exists u, usb self = Some u /\ is_ready u = true) /\
    (cmd = turn_off ->
     (exists u, usb self = Some u /\ is_ready u = false) ->
     c = device_async_turn_off).
Proof.
  intros Hr.
  destruct (run_spec env self d cmd Hr) as (c & t & _ & Hch & Hrem & Hrun).
  exists c. rewrite Hrun.
  assert (Hsel : (channel_of c = Local <->
                  exists u, usb self = Some u /\ is_ready u = true) /\
                 (channel_of c = Remote <->
                  ~ exists u, usb self = Some u /\ is_ready u = true)).
  { pose proof (usb_is_ready_iff self) as Hiff. rewrite Hch.
    destruct (usb_is_ready self); split; split; intros H;
      try discriminate; try reflexivity;
      try (apply Hiff; reflexivity);
      try (apply Hiff in H; discriminate);
      try (exfalso; apply H, Hiff; reflexivity);
      try (intros H'; apply Hiff in H'; discriminate). }
  assert (Hoff : cmd = turn_off ->
                 (exists u, usb self = Some u /\ is_ready u = false) ->
                 c = device_async_turn_off).
  { intros -> (u & Eu & Hu). apply Hrem.
    unfold usb_is_ready. now rewrite Eu. }
  destruct (env c) as [e|];
    [destruct (caught cmd e)|];
    eexists; (split; [reflexivity|]);
    (split; [|tauto]);
    intros c' Hin; simpl in Hin; intuition discriminate.
Qed.

Lemma C1_channel_selection_witness :
  exists rest,
    events_of (run all_return unplugged_dongle turn_off plug) =
      Call device_async_turn_off :: rest /\
    (forall c', ~ In (Call c') rest) /\
    channel_of device_async_turn_off = Remote.
Proof.
  destruct (C1_channel_selection all_return unplugged_dongle plug turn_off I)
    as (c & rest & Hev & Hno & _ & _ & Hoff).
  assert (Hc : c = device_async_turn_off).
  { apply Hoff; [reflexivity|].
    exists {| is_ready := false |}. split; reflexivity. }
  subst c. exists rest. repeat split; assumption.
Defined.

(** C6, as stated, fails when the cloud refuses or cannot be reached:
    without a dongle handle, a [turn_on] whose cloud call raises leaves the
    state at 30, not at 100, and no state-changed signal goes out. *)
Lemma C6_state_not_100_counterexample :
  usb cloud_only = None /\
  events_of (run transport_down cloud_only turn_on plug) =
    [Call device_async_turn_on] /\
  state (device_of (run transport_down cloud_only turn_on plug)) = 30 /\
  30 <> 100.
Proof. repeat split; try (vm_compute; reflexivity). lia. Qed.

(** C6 (amended): without a dongle handle, [turn_on] with no brightness
    starts by calling the cloud's turn-on.  When that call returns, the
    device state is set to 100 and the state-changed signal goes out after
    the call, and the command returns.  When that call raises, the
    exception is the command's, the device is as it was and no signal goes
    out: the write comes after the call, not before it. *)
Theorem C6_turn_on_without_dongle env self d :
  usb self = None ->
  (exists rest,
      events_of (run env self turn_on d) = Call device_async_turn_on :: rest) /\
  (env device_async_turn_on = None ->
   result_of (run env self turn_on d) = Return tt /\
   state (device_of (run env self turn_on d)) = 100 /\
   events_of (run env self turn_on d) =
     [Call device_async_turn_on; WriteHaState 100]) /\
  (forall e, env device_async_turn_on = Some e ->
   result_of (run env self turn_on d) = Raise e /\
   device_of (run env self turn_on d) = d /\
   events_of (run env self turn_on d) = [Call device_async_turn_on]).
Proof.
  intros Hu. rewrite run_turn_on. unfold usb_is_ready. rewrite Hu. cbv zeta.
  split; [|split].
  - destruct (env device_async_turn_on); eexists; reflexivity.
  - intros ->. repeat split.
  - intros e ->. repeat split.
Qed.

Lemma C6_turn_on_without_dongle_witness :
  (exists rest,
      events_of (run all_return cloud_only turn_on plug) =
        Call device_async_turn_on :: rest) /\
  result_of (run all_return cloud_only turn_on plug) = Return tt /\
  state (device_of (run all_return cloud_only turn_on plug)) = 100 /\
  events_of (run all_return cloud_only turn_on plug) =
    [Call device_async_turn_on; WriteHaState 100].
Proof.
  destruct (C6_turn_on_without_dongle all_return cloud_only plug eq_refl)
    as (Hfirst & Hthen & _).
  split; [exact Hfirst | apply Hthen; reflexivity].
Defined.

(** C7: when [set_brightness] calls the cloud's brightness operation and
    that raises [CrownstoneAbilityError], the command returns normally, the
    error is logged, the device is as it was, and no state-changed signal
    goes out. *)
Theorem C7_ability_error_swallowed env self d level lvl msg :
  0 <= level <= 255 ->
  In (Call (async_set_brightness lvl))
     (events_of (run env self (set_brightness level) d)) ->
  env (async_set_brightness lvl) = Some (CrownstoneAbilityError msg) ->
  result_of (run env self (set_brightness level) d) = Return tt /\
  device_of (run env self (set_brightness level) d) = d /\
  events_of (run env self (set_brightness level) d) =
    [Call (async_set_brightness lvl);
     LoggerError (CrownstoneAbilityError msg)] /\
  (forall s, ~ In (WriteHaState s)
                  (events_of (run env self (set_brightness level) d))).
Proof.
  intros Hr Hin Henv.
  destruct (run_spec env self d (set_brightness level) Hr)
    as (c & t & _ & _ & _ & Hrun).
  rewrite Hrun in *.
  assert (Hc : c = async_set_brightness lvl).
  { destruct (env c) as [e|]; [destruct (caught _ e)|];
      simpl in Hin; intuition congruence. }
  subst c. rewrite Henv in *. simpl.
  repeat split. intros s Hs. simpl in Hs. intuition discriminate.
Qed.

Lemma C7_ability_error_swallowed_witness :
  result_of (run ability_disabled cloud_only (set_brightness 128) plug) =
    Return tt /\
  device_of (run ability_disabled cloud_only (set_brightness 128) plug) =
    plug /\
  events_of (run ability_disabled cloud_only (set_brightness 128) plug) =
    [Call (async_set_brightness 50);
     LoggerError (CrownstoneAbilityError "dimming is not enabled")] /\
  (forall s, ~ In (WriteHaState s)
       (events_of (run ability_disabled cloud_only (set_brightness 128) plug))).
Proof.
  apply (C7_ability_error_swallowed ability_disabled cloud_only plug 128 50
           "dimming is not enabled").
  - lia.
  - vm_compute. left. reflexivity.
  - reflexivity.
Defined.

(** C8: a channel operation made by [turn_on], [turn_off] or
    [set_brightness] that raises anything but [CrownstoneAbilityError] makes
    the command raise that same exception. *)
Theorem C8_other_failures_propagate env self d cmd c e :
  in_range cmd ->
  In (Call c) (events_of (run env self cmd d)) ->
  env c = Some e ->
  is_ability_error e = false ->
  result_of (run env self cmd d) = Raise e.
Proof.
  intros Hr Hin Henv He.
  destruct (run_spec env self d cmd Hr) as (c0 & t & _ & _ & _ & Hrun).
  rewrite Hrun in *.
  assert (Hc : c = c0).
  { destruct (env c0) as [e0|];
      [destruct (caught cmd e0)|];
      simpl in Hin; intuition congruence. }
  subst c0. rewrite Henv.
  assert (Hcaught : caught cmd e = false) by (destruct cmd; simpl; auto).
  now rewrite Hcaught.
Qed.

Lemma C8_other_failures_propagate_witness :
  result_of (run transport_down with_dongle (set_brightness 255) plug) =
    Raise (OtherError "CrownstoneConnectionError" "timeout").
Proof.
  apply (C8_other_failures_propagate transport_down with_dongle plug
           (set_brightness 255) (dim_crownstone 7 100)).
  - simpl. lia.
  - vm_compute. left. reflexivity.
  - reflexivity.
  - reflexivity.
Defined.

(** C9, as stated, fails when the channel refuses the command: a
    [set_brightness(128)] answered by [CrownstoneAbilityError] leaves the
    state at 30, not at the 50 that 128 converts to. *)
Lemma C9_state_not_written_counterexample :
  target_state (set_brightness 128) = Some 50 /\
  state (device_of (run ability_disabled cloud_only (set_brightness 128) plug))
    = 30 /\
  30 <> 50.
Proof. repeat split; try (vm_compute; reflexivity). lia. Qed.

(** C9 (amended): every command makes one channel operation; when that
    operation returns, the device state is written at once, to
    [hass_to_crownstone_state level] for [set_brightness], 100 for
    [turn_on], 0 for [turn_off], and the state-changed signal follows, with
    no confirmation looked at; when the operation raises, the state is not
    written. *)
Theorem C9_state_written_when_call_returns env self d cmd :
  in_range cmd ->
  exists c t rest,
    target_state cmd = Some t /\
    events_of (run env self cmd d) = Call c :: rest /\
    (env c = None ->
     result_of (run env self cmd d) = Return tt /\
     state (device_of (run env self cmd d)) = t /\
     rest = [WriteHaState t]) /\
    (forall e, env c = Some e ->
     device_of (run env self cmd d) = d /\
     forall s, ~ In (WriteHaState s) rest).
Proof.
  intros Hr.
  destruct (run_spec env self d cmd Hr) as (c & t & Ht & _ & _ & Hrun).
  exists c, t. rewrite Hrun.
  destruct (env c) as [e|];
    [destruct (caught cmd e)|];
    eexists; (split; [exact Ht|]); (split; [reflexivity|]); split;
    try discriminate; try (intros _; repeat split).
  all: intros e' _; split; [reflexivity|];
    intros s Hs; simpl in Hs; intuition discriminate.
Qed.

Lemma C9_state_written_when_call_returns_witness :
  exists c t,
    target_state turn_off = Some t /\
    events_of (run all_return with_dongle turn_off plug) =
      [Call c; WriteHaState t] /\
    result_of (run all_return with_dongle turn_off plug) = Return tt /\
    state (device_of (run all_return with_dongle turn_off plug)) = t.
Proof.
  destruct (C9_state_written_when_call_returns all_return with_dongle plug
              turn_off I) as (c & t & rest & Ht & Hev & Hret & _).
  destruct (Hret eq_refl) as (Hres & Hst & ->).
  exists c, t. repeat split; assumption.
Defined.

(** ** Setting the platform up *)

Lemma usb_scan_sphere (sid : string) (cs : list CrownstoneData)
  (id : option string) :
  fold_left
    (fun id c => if String.eqb (type c) CROWNSTONE_USB then Some sid else id)
    cs id
  = if existsb is_usb cs then Some sid else id.
Proof.
  revert id. induction cs as [|c cs IH]; intros id; simpl; [reflexivity|].
  rewrite IH. unfold is_usb.
  destruct (String.eqb (type c) CROWNSTONE_USB); simpl; [|reflexivity].
  now destruct (existsb _ cs).
Qed.

Lemma usb_scan_none (data : list Sphere) (id : option string) :
  (forall s c, In s data -> In c (crownstones s) -> is_usb c = false) ->
  fold_left
    (fun id sphere =>
       fold_left
         (fun id c =>
            if String.eqb (type c) CROWNSTONE_USB
            then Some (sphere_cloud_id sphere) else id)
         (crownstones sphere) id)
    data id = id.
Proof.
  revert id. induction data as [|s data IH]; intros id H; simpl;
    [reflexivity|].
  rewrite usb_scan_sphere.
  assert (E : existsb is_usb (crownstones s) = false).
  { apply Bool.not_true_is_false. intros Hex.
    apply existsb_exists in Hex. destruct Hex as (c & Hc & Hu).
    rewrite (H s c) in Hu; [discriminate | now left | exact Hc]. }
  rewrite E. apply IH. intros s' c Hs' Hc. apply (H s' c); [now right|exact Hc].
Qed.

Lemma setup_scan_sphere (sid : string) (id : option string)
  (uart : option CrownstoneUart) cs acc :
  fold_left
    (fun entities c =>
       if dict_mem String.eqb (type c) CROWNSTONE_INCLUDE_TYPES
       then
         if eq_optional sid id
         then entities ++ [{| device := c; light := {| usb := uart |} |}]
         else entities ++ [{| device := c; light := {| usb := None |} |}]
       else entities)
    cs acc
  = acc ++
    map (fun c => {| device := c;
                     light := {| usb := if eq_optional sid id
                                        then uart else None |} |})
        (filter included cs).
Proof.
  revert acc. induction cs as [|c cs IH]; intros acc; simpl.
  - now rewrite app_nil_r.
  - rewrite IH. unfold included at 2.
    destruct (dict_mem String.eqb (type c) CROWNSTONE_INCLUDE_TYPES); simpl;
      [|reflexivity].
    destruct (eq_optional sid id); now rewrite <- app_assoc.
Qed.

Lemma setup_scan (id : option string) (uart : option CrownstoneUart)
  data acc :
  fold_left
    (fun entities sphere =>
       fold_left
         (fun entities c =>
            if dict_mem String.eqb (type c) CROWNSTONE_INCLUDE_TYPES
            then
              if eq_optional (sphere_cloud_id sphere) id
              then entities ++ [{| device := c; light := {| usb := uart |} |}]
              else entities ++ [{| device := c; light := {| usb := None |} |}]
            else entities)
         (crownstones sphere) entities)
    data acc
  = acc ++
    flat_map
      (fun s =>
         map (fun c => {| device := c;
                          light := {| usb := if eq_optional (sphere_cloud_id s) id
                                             then uart else None |} |})
             (filter included (crownstones s)))
      data.
Proof.
  revert acc. induction data as [|s data IH]; intros acc; simpl.
  - now rewrite app_nil_r.
  - rewrite IH, setup_scan_sphere. now rewrite app_assoc.
Qed.

(** [async_setup_entry] without its accumulators. *)
Lemma async_setup_entry_closed data uart :
  async_setup_entry data uart =
  flat_map
    (fun s =>
       map (fun c => {| device := c;
                        light := {| usb := handle_for data uart s |} |})
           (filter included (crownstones s)))
    data.
Proof.
  unfold async_setup_entry, handle_for. now rewrite setup_scan.
Qed.

Lemma devices_of_entities (h : Sphere -> option CrownstoneUart) data :
  map device
      (flat_map
         (fun s =>
            map (fun c => {| device := c; light := {| usb := h s |} |})
                (filter included (crownstones s)))
         data)
  = filter included (flat_map crownstones data).
Proof.
  induction data as [|s data IH]; simpl; [reflexivity|].
  rewrite map_app, filter_app, IH. f_equal.
  rewrite map_map. simpl. apply map_id.
Qed.

(** X1: [async_setup_entry] makes one entity for each Crownstone whose type
    is a key of [CROWNSTONE_INCLUDE_TYPES], in the order of the cloud data,
    and none for any other Crownstone. *)
Theorem X1_setup_entities_are_included_crownstones data uart :
  map device (async_setup_entry data uart) =
  filter included (flat_map crownstones data).
Proof.
  rewrite async_setup_entry_closed. apply devices_of_entities.
Qed.

(** X2: a Crownstone USB dongle is listed in the cloud data but never
    becomes a light entity. *)
Theorem X2_setup_skips_the_dongle data uart e :
  In e (async_setup_entry data uart) ->
  type (device e) <> CROWNSTONE_USB.
Proof.
  intros Hin.
  assert (Hd : In (device e) (map device (async_setup_entry data uart)))
    by now apply in_map.
  rewrite async_setup_entry_closed, devices_of_entities in Hd.
  apply filter_In in Hd. destruct Hd as [_ Hinc].
  intros E. unfold included in Hinc. rewrite E in Hinc.
  vm_compute in Hinc. discriminate.
Qed.

Lemma X2_setup_skips_the_dongle_witness :
  type (device {| device := lamp; light := with_dongle |}) <> CROWNSTONE_USB.
Proof.
  apply (X2_setup_skips_the_dongle [home; office]
           (Some {| is_ready := true |})).
  vm_compute. left. reflexivity.
Defined.

Lemma entity_of_setup data uart e :
  In e (async_setup_entry data uart) <->
  exists s, In s data /\ In (device e) (crownstones s) /\
            included (device e) = true /\
            usb (light e) = handle_for data uart s.
Proof.
  rewrite async_setup_entry_closed, in_flat_map. split.
  - intros (s & Hs & He). exists s. split; [exact Hs|].
    apply in_map_iff in He. destruct He as (c & <- & Hc).
    apply filter_In in Hc. simpl. tauto.
  - intros (s & Hs & Hc & Hinc & Hu). exists s. split; [exact Hs|].
    apply in_map_iff. exists (device e). split.
    + destruct e as [dv [u]]. simpl in *. now rewrite Hu.
    + apply filter_In. tauto.
Qed.

Lemma is_usb_false c : type c <> CROWNSTONE_USB -> is_usb c = false.
Proof. intros H. now apply String.eqb_neq. Qed.

(** X3: when no Crownstone of the cloud data is a Crownstone USB, no
    entity is given the dongle handle, whatever [manager.uart] is. *)
Theorem X3_no_dongle_no_handle data uart e :
  (forall s c, In s data -> In c (crownstones s) ->
               type c <> CROWNSTONE_USB) ->
  In e (async_setup_entry data uart) ->
  usb (light e) = None.
Proof.
  intros Hno He. apply entity_of_setup in He.
  destruct He as (s & _ & _ & _ & ->).
  unfold handle_for, crownstone_usb_sphere_id.
  rewrite usb_scan_none; [reflexivity|].
  intros s' c Hs' Hc. apply is_usb_false. now apply (Hno s' c).
Qed.

Lemma X3_no_dongle_no_handle_witness :
  usb (light {| device := ceiling; light := cloud_only |}) = None.
Proof.
  apply (X3_no_dongle_no_handle [office] (Some {| is_ready := true |})).
  - intros s c [<-|[]] [<-|[]]. vm_compute. discriminate.
  - vm_compute. left. reflexivity.
Defined.

(** X4: with dongles in several spheres the later sphere wins: the sphere
    id [async_setup_entry] settles on is the id of the last sphere of the
    cloud data that holds a Crownstone USB. *)
Theorem X4_last_dongle_sphere_wins pre s post :
  (exists c, In c (crownstones s) /\ type c = CROWNSTONE_USB) ->
  (forall s' c, In s' post -> In c (crownstones s') ->
                type c <> CROWNSTONE_USB) ->
  crownstone_usb_sphere_id (pre ++ s :: post) = Some (sphere_cloud_id s).
Proof.
  intros (c & Hc & Ht) Hpost. unfold crownstone_usb_sphere_id.
  rewrite fold_left_app. simpl. rewrite usb_scan_sphere.
  assert (E : existsb is_usb (crownstones s) = true).
  { apply existsb_exists. exists c. split; [exact Hc|].
    unfold is_usb. rewrite Ht. apply String.eqb_refl. }
  rewrite E. apply usb_scan_none.
  intros s' c' Hs' Hc'. apply is_usb_false. now apply (Hpost s' c').
Qed.

Lemma X4_last_dongle_sphere_wins_witness :
  crownstone_usb_sphere_id ([home] ++ shed :: [office]) =
  Some (sphere_cloud_id shed).
Proof.
  apply (X4_last_dongle_sphere_wins [home] shed [office]).
  - exists dongle. split; [left|]; reflexivity.
  - intros s' c [<-|[]] [<-|[]]. vm_compute. discriminate.
Defined.

(** X5: the entities [async_setup_entry] makes are exactly these: for a
    sphere of the cloud data and a Crownstone of it with an included type,
    the entity of that Crownstone, holding [manager.uart] when the
    sphere's id is the Crownstone USB sphere id and no handle otherwise. *)
Theorem X5_setup_entity_handle data uart e :
  In e (async_setup_entry data uart) <->
  exists s, In s data /\ In (device e) (crownstones s) /\
            included (device e) = true /\
            usb (light e) =
              if eq_optional (sphere_cloud_id s)
                             (crownstone_usb_sphere_id data)
              then uart else None.
Proof. apply entity_of_setup. Qed.

Lemma X5_setup_entity_handle_witness :
  In {| device := lamp; light := with_dongle |}
     (async_setup_entry [home; office] (Some {| is_ready := true |})).
Proof.
  apply (proj2 (X5_setup_entity_handle [home; office]
                  (Some {| is_ready := true |})
                  {| device := lamp; light := with_dongle |})).
  exists home. repeat split; try reflexivity; left; reflexivity.
Defined.

(** X6: when no Crownstone of the cloud data is a Crownstone USB, every
    command on every entity of the platform goes to the cloud, even with a
    dongle that is plugged in and ready. *)
Theorem X6_no_dongle_commands_go_remote data uart e env d cmd :
  (forall s c, In s data -> In c (crownstones s) ->
               type c <> CROWNSTONE_USB) ->
  In e (async_setup_entry data uart) ->
  in_range cmd ->
  exists c rest,
    events_of (run env (light e) cmd d) = Call c :: rest /\
    channel_of c = Remote.
Proof.
  intros Hno He Hr.
  assert (Hu : usb_is_ready (light e) = false).
  { apply entity_of_setup in He. destruct He as (s & _ & _ & _ & Hu).
    unfold usb_is_ready. rewrite Hu. unfold handle_for, crownstone_usb_sphere_id.
    rewrite usb_scan_none; [reflexivity|].
    intros s' c Hs' Hc. apply is_usb_false. now apply (Hno s' c). }
  destruct (run_spec env (light e) d cmd Hr) as (c & t & _ & Hch & _ & Hrun).
  rewrite Hu in Hch. exists c. rewrite Hrun.
  destruct (env c) as [ex|]; [destruct (caught cmd ex)|];
    eexists; (split; [reflexivity | exact Hch]).
Qed.

Lemma X6_no_dongle_commands_go_remote_witness :
  exists c rest,
    events_of (run all_return
                   (light {| device := ceiling; light := cloud_only |})
                   turn_on plug) = Call c :: rest /\
    channel_of c = Remote.
Proof.
  apply (X6_no_dongle_commands_go_remote [office]
           (Some {| is_ready := true |})).
  - intros s c [<-|[]] [<-|[]]. vm_compute. discriminate.
  - vm_compute. left. reflexivity.
  - exact I.
Defined.

(** X7: the model that [device_info] reports for an entity of the platform
    is one of the three names of [CROWNSTONE_INCLUDE_TYPES]; the [None] a
    missing type would print never shows. *)
Theorem X7_device_info_model_is_known data uart e :
  In e (async_setup_entry data uart) ->
  In (CrownstoneDevice.model (CrownstoneDevice.device_info e))
     ["Plug"%string; "Built-in"%string; "Built-in One"%string].
Proof.
  intros He. apply entity_of_setup in He.
  destruct He as (s & _ & _ & Hinc & _).
  unfold CrownstoneDevice.device_info.
  cbn [CrownstoneDevice.model].
  unfold included, dict_mem in Hinc.
  generalize dependent (type (device e)). intros t.
  unfold CROWNSTONE_INCLUDE_TYPES. cbn [dict_get].
  destruct (String.eqb "PLUG" t); [now left|].
  destruct (String.eqb "BUILTIN" t); [now right; left|].
  destruct (String.eqb "BUILTIN_ONE" t);
    [now right; right; left | discriminate].
Qed.

Lemma X7_device_info_model_is_known_witness :
  In (CrownstoneDevice.model
        (CrownstoneDevice.device_info
           {| device := ceiling; light := cloud_only |}))
     ["Plug"%string; "Built-in"%string; "Built-in One"%string].
Proof.
  apply (X7_device_info_model_is_known [home; office] None).
  vm_compute. right. left. reflexivity.
Defined.

Lemma string_length_append (a b : string) :
  String.length (a ++ b) = (String.length a + String.length b)%nat.
Proof. induction a as [|c a IH]; simpl; [reflexivity | now rewrite IH]. Qed.

Lemma string_append_inj_l (a b s : string) :
  (a ++ s)%string = (b ++ s)%string -> a = b.
Proof.
  revert b. induction a as [|c a IH]; intros [|c' b] H; simpl in H.
  - reflexivity.
  - apply (f_equal String.length) in H. simpl in H.
    rewrite string_length_append in H. lia.
  - apply (f_equal String.length) in H. simpl in H.
    rewrite string_length_append in H. lia.
  - injection H as -> H. f_equal. now apply IH.
Qed.

(** X8: entities whose Crownstones have different cloud ids have different
    unique ids, so the unique ids of the platform's entities are pairwise
    distinct when the cloud ids of the included Crownstones are. *)
Theorem X8_unique_ids_distinct data uart :
  NoDup (map cloud_id (filter included (flat_map crownstones data))) ->
  NoDup (map LightEntity.unique_id (async_setup_entry data uart)).
Proof.
  rewrite <- (devices_of_entities (handle_for data uart)).
  rewrite <- async_setup_entry_closed.
  generalize (async_setup_entry data uart) as es. intros es.
  rewrite map_map.
  induction es as [|e es IH]; simpl; intros Hnd; [constructor|].
  inversion Hnd as [|x l Hnotin Hnd']; subst.
  constructor; [|now apply IH].
  intros Hin. apply Hnotin.
  apply in_map_iff in Hin. destruct Hin as (e' & Heq & He').
  apply in_map_iff. exists e'. split; [|exact He'].
  unfold LightEntity.unique_id, CrownstoneDevice.cloud_id in Heq.
  now apply string_append_inj_l in Heq.
Qed.

Lemma X8_unique_ids_distinct_witness :
  NoDup (map LightEntity.unique_id (async_setup_entry [home; office] None)).
Proof.
  apply X8_unique_ids_distinct. vm_compute.
  repeat constructor; simpl; intuition discriminate.
Defined.

(** ** The conversions outside their scales *)

(** [digits2_pos p] is the bit length of [p]. *)
Lemma digits2_pos_bounds (p : positive) :
  2 ^ (Zpos (digits2_pos p) - 1) <= Zpos p < 2 ^ Zpos (digits2_pos p).
Proof.
  induction p as [p IH|p IH|]; simpl digits2_pos.
  - rewrite Pos2Z.inj_succ.
    replace (Z.succ (Zpos (digits2_pos p)) - 1)
      with (Z.succ (Zpos (digits2_pos p) - 1)) by lia.
    rewrite !Z.pow_succ_r by lia. lia.
  - rewrite Pos2Z.inj_succ.
    replace (Z.succ (Zpos (digits2_pos p)) - 1)
      with (Z.succ (Zpos (digits2_pos p) - 1)) by lia.
    rewrite !Z.pow_succ_r by lia. lia.
  - simpl. lia.
Qed.

(** Shifting right by one bit halves a lower bound on the mantissa. *)
Lemma shr_1_lower j mrs :
  0 <= j -> 2 ^ (j + 1) <= shr_m mrs -> 2 ^ j <= shr_m (shr_1 mrs).
Proof.
  intros Hj. rewrite Z.pow_add_r by lia. change (2 ^ 1) with 2.
  assert (0 < 2 ^ j) by (apply Z.pow_pos_nonneg; lia).
  destruct mrs as [m r s]. simpl.
  destruct m as [|[p|p|]|[p|p|]]; simpl; lia.
Qed.

Lemma iter_shr_1_lower k : forall j mrs,
  0 <= j -> 2 ^ (j + Zpos k) <= shr_m mrs ->
  2 ^ j <= shr_m (iter_pos shr_1 k mrs).
Proof.
  induction k as [k IH|k IH|]; intros j mrs Hj H; simpl.
  - apply IH; [lia|]. apply IH; [lia|]. apply shr_1_lower; [lia|].
    replace (j + Zpos k + Zpos k + 1) with (j + Zpos k~1) by lia. exact H.
  - apply IH; [lia|]. apply IH; [lia|].
    replace (j + Zpos k + Zpos k) with (j + Zpos k~0) by lia. exact H.
  - now apply shr_1_lower.
Qed.

Lemma shr_m_of_loc m l : shr_m (shr_record_of_loc m l) = m.
Proof. destruct l as [|[]]; reflexivity. Qed.

(** Rounding a positive mantissa to 53 bits leaves it positive and does
    not lower the exponent. *)
Lemma shr_fexp_pos m e l :
  0 < m -> -1074 <= e ->
  0 < shr_m (fst (shr_fexp F64.prec F64.emax m e l)) /\
  e <= snd (shr_fexp F64.prec F64.emax m e l).
Proof.
  intros Hm He. unfold shr_fexp, shr.
  destruct m as [|p|p]; try lia. cbn [Zdigits2].
  pose proof (digits2_pos_bounds p) as Hd.
  set (d := Zpos (digits2_pos p)) in *.
  assert (Hf : fexp F64.prec F64.emax (d + e) - e = Z.max (d - 53) (-1074 - e)).
  { unfold fexp, emin, F64.prec, F64.emax. lia. }
  rewrite Hf.
  destruct (Z.max (d - 53) (-1074 - e)) as [|k|k] eqn:E; cbn [fst snd].
  - rewrite shr_m_of_loc. lia.
  - split; [|lia].
    assert (2 ^ 52 <= shr_m (iter_pos shr_1 k (shr_record_of_loc (Zpos p) l))).
    { apply iter_shr_1_lower; [lia|]. rewrite shr_m_of_loc.
      replace (52 + Zpos k) with (d - 1) by lia. lia. }
    assert (0 < 2 ^ 52) by (apply Z.pow_pos_nonneg; lia). lia.
  - rewrite shr_m_of_loc. lia.
Qed.

Lemma round_nearest_even_ge m l : m <= round_nearest_even m l.
Proof. destruct l as [|[]]; simpl; try destruct (Z.even m); lia. Qed.

Lemma binary_round_aux_shape s m e l :
  0 < m -> -1074 <= e ->
  binary_round_aux F64.prec F64.emax s m e l = S754_infinity s \/
  exists m' e',
    binary_round_aux F64.prec F64.emax s m e l = S754_finite s m' e' /\
    e <= e'.
Proof.
  intros Hm He. unfold binary_round_aux.
  pose proof (shr_fexp_pos m e l Hm He) as [H1 H2].
  destruct (shr_fexp F64.prec F64.emax m e l) as [mrs' e'].
  cbn [fst snd] in H1, H2.
  pose proof (round_nearest_even_ge (shr_m mrs') (loc_of_shr_record mrs')) as Hr.
  set (m2 := round_nearest_even (shr_m mrs') (loc_of_shr_record mrs')) in *.
  assert (Hm2 : 0 < m2) by lia. assert (He' : -1074 <= e') by lia.
  pose proof (shr_fexp_pos m2 e' loc_Exact Hm2 He') as [H3 H4].
  destruct (shr_fexp F64.prec F64.emax m2 e' loc_Exact) as [mrs'' e''].
  cbn [fst snd] in H3, H4.
  destruct (shr_m mrs'') as [|q|q]; try lia.
  destruct (e'' <=? F64.emax - F64.prec); [right|left; reflexivity].
  exists q, e''. split; [reflexivity|lia].
Qed.

(** A nonzero integer converts to a finite double of its sign, or to the
    infinity of its sign. *)
Lemma binary_round_shape s p :
  binary_round F64.prec F64.emax s p 0 = S754_infinity s \/
  exists m e,
    binary_round F64.prec F64.emax s p 0 = S754_finite s m e /\
    Z.min 0 (Zpos (digits2_pos p) - 53) <= e.
Proof.
  unfold binary_round, shl_align.
  set (d := Zpos (digits2_pos p)).
  assert (Hf : fexp F64.prec F64.emax (d + 0) - 0 = Z.max (d - 53) (-1074)).
  { unfold fexp, emin, F64.prec, F64.emax. lia. }
  assert (Hf' : fexp F64.prec F64.emax (d + 0) = Z.max (d - 53) (-1074)) by lia.
  rewrite Hf.
  destruct (Z.max (d - 53) (-1074)) as [|k|k] eqn:E.
  - destruct (binary_round_aux_shape s (Zpos p) 0 loc_Exact) as [H|(m & e & H & Hle)];
      try lia; [now left | right; exists m, e; split; [exact H | lia]].
  - destruct (binary_round_aux_shape s (Zpos p) 0 loc_Exact) as [H|(m & e & H & Hle)];
      try lia; [now left | right; exists m, e; split; [exact H | lia]].
  - rewrite Hf'.
    destruct (binary_round_aux_shape s (Zpos (Pos.iter xO p k)) (Z.max (d - 53) (-1074)) loc_Exact)
      as [H|(m & e & H & Hle)]; try lia.
    + rewrite E in H. now left.
    + rewrite E in H. right. exists m, e. split; [exact H | lia].
Qed.

(** [numpy.interp] right and left of two sample points. *)
Lemma interp_right x xp0 xp1 fp0 fp1 :
  F64.is_nan x = false -> F64.gtb x xp1 = true ->
  Numpy.interp x [xp0; xp1] [fp0; fp1] = fp1.
Proof.
  intros Hn Hg. unfold Numpy.interp, Numpy.binary_search_with_guess.
  cbn [List.length Nat.sub nth]. rewrite Hn, Hg. reflexivity.
Qed.

Lemma interp_left x xp0 xp1 fp0 fp1 :
  F64.is_nan x = false -> F64.gtb x xp1 = false -> F64.ltb x xp0 = true ->
  Numpy.interp x [xp0; xp1] [fp0; fp1] = fp0.
Proof.
  intros Hn Hg Hl. unfold Numpy.interp, Numpy.binary_search_with_guess.
  cbn [List.length Nat.sub nth]. rewrite Hn, Hg, Hl. reflexivity.
Qed.

Lemma of_int_large v :
  256 <= v ->
  F64.of_int v = S754_infinity false \/
  exists m e, F64.of_int v = S754_finite false m e /\ -44 <= e.
Proof.
  intros Hv. destruct v as [|p|p]; try lia.
  unfold F64.of_int, binary_normalize.
  pose proof (digits2_pos_bounds p) as [_ Hd].
  assert (9 <= Zpos (digits2_pos p)).
  { destruct (Z_lt_le_dec (Zpos (digits2_pos p)) 9) as [Hlt|]; [|assumption].
    assert (2 ^ Zpos (digits2_pos p) <= 2 ^ 8)
      by (apply Z.pow_le_mono_r; lia).
    change (2 ^ 8) with 256 in *. lia. }
  destruct (binary_round_shape false p) as [H'|(m & e & H' & Hle)];
    [now left | right; exists m, e; split; [exact H' | lia]].
Qed.

Lemma of_int_negative v :
  v < 0 ->
  F64.of_int v = S754_infinity true \/
  exists m e, F64.of_int v = S754_finite true m e.
Proof.
  intros Hv. destruct v as [|p|p]; try lia.
  unfold F64.of_int, binary_normalize.
  destruct (binary_round_shape true p) as [H'|(m & e & H' & _)];
    [now left | right; now exists m, e].
Qed.

Lemma crownstone_state_to_hass_above v :
  100 <= v -> crownstone_state_to_hass v = Some 255.
Proof.
  intros Hv. destruct (Z_lt_le_dec v 256) as [Hlt|Hge].
  - assert (H : forallb (fun v => option_Z_eqb (crownstone_state_to_hass (v + 100)) 255)
                        (map Z.of_nat (seq 0 156)) = true) by (vm_compute; reflexivity).
    rewrite forallb_forall in H.
    specialize (H (v - 100)). replace (v - 100 + 100) with v in H by lia.
    apply option_Z_eqb_eq, H. apply in_map_iff. exists (Z.to_nat (v - 100)).
    split; [lia|]. apply in_seq. lia.
  - unfold crownstone_state_to_hass. cbn [map].
    assert (Hx : F64.is_nan (F64.of_int v) = false /\
                 F64.gtb (F64.of_int v) (F64.of_int 100) = true).
    { destruct (of_int_large v Hge) as [E|(m & e & E & He)]; rewrite E.
      - split; reflexivity.
      - split; [reflexivity|]. unfold F64.gtb, SFltb.
        assert (E100 : exists m', F64.of_int 100 = S754_finite false m' (-46))
          by (eexists; reflexivity).
        destruct E100 as [m' ->].
        cbn [SFcompare]. destruct (Z.compare_spec (-46) e); reflexivity || lia. }
    destruct Hx as [Hn Hg]. rewrite (interp_right _ _ _ _ _ Hn Hg). reflexivity.
Qed.

Lemma hass_to_crownstone_state_above v :
  255 <= v -> hass_to_crownstone_state v = Some 100.
Proof.
  intros Hv. destruct (Z.eq_dec v 255) as [->|Hne]; [reflexivity|].
  assert (Hge : 256 <= v) by lia.
  unfold hass_to_crownstone_state. cbn [map].
  assert (Hx : F64.is_nan (F64.of_int v) = false /\
               F64.gtb (F64.of_int v) (F64.of_int 255) = true).
  { destruct (of_int_large v Hge) as [E|(m & e & E & He)]; rewrite E.
    - split; reflexivity.
    - split; [reflexivity|]. unfold F64.gtb, SFltb.
      assert (E255 : exists m', F64.of_int 255 = S754_finite false m' (-45))
        by (eexists; reflexivity).
      destruct E255 as [m' ->].
      cbn [SFcompare]. destruct (Z.compare_spec (-45) e); reflexivity || lia. }
  destruct Hx as [Hn Hg]. rewrite (interp_right _ _ _ _ _ Hn Hg). reflexivity.
Qed.

Lemma interp_below v xp1 fp1 :
  v < 0 ->
  (exists m e, xp1 = S754_finite false m e) ->
  Numpy.interp (F64.of_int v) [F64.of_int 0; xp1] [F64.of_int 0; fp1]
  = F64.of_int 0.
Proof.
  intros Hv (m1 & e1 & ->).
  apply interp_left;
    destruct (of_int_negative v Hv) as [E|(m & e & E)]; rewrite E; reflexivity.
Qed.

Lemma crownstone_state_to_hass_below v :
  v <= 0 -> crownstone_state_to_hass v = Some 0.
Proof.
  intros Hv. destruct (Z.eq_dec v 0) as [->|Hne]; [reflexivity|].
  unfold crownstone_state_to_hass. cbn [map].
  rewrite interp_below; [reflexivity | lia | ].
  eexists _, _. vm_compute. reflexivity.
Qed.

Lemma hass_to_crownstone_state_below v :
  v <= 0 -> hass_to_crownstone_state v = Some 0.
Proof.
  intros Hv. destruct (Z.eq_dec v 0) as [->|Hne]; [reflexivity|].
  unfold hass_to_crownstone_state. cbn [map].
  rewrite interp_below; [reflexivity | lia | ].
  eexists _, _. vm_compute. reflexivity.
Qed.

Lemma crownstone_state_to_hass_clamped v :
  crownstone_state_to_hass v = Some (Z.max 0 (Z.min 100 v) * 255 / 100).
Proof.
  destruct (Z_lt_le_dec v 0); [|destruct (Z_lt_le_dec 100 v)].
  - rewrite crownstone_state_to_hass_below by lia.
    replace (Z.max 0 (Z.min 100 v)) with 0 by lia. reflexivity.
  - rewrite crownstone_state_to_hass_above by lia.
    replace (Z.max 0 (Z.min 100 v)) with 100 by lia. reflexivity.
  - rewrite crownstone_state_to_hass_floor by lia.
    replace (Z.max 0 (Z.min 100 v)) with v by lia. reflexivity.
Qed.

Lemma hass_to_crownstone_state_clamped v :
  hass_to_crownstone_state v = Some (Z.max 0 (Z.min 255 v) * 100 / 255).
Proof.
  destruct (Z_lt_le_dec v 0); [|destruct (Z_lt_le_dec 255 v)].
  - rewrite hass_to_crownstone_state_below by lia.
    replace (Z.max 0 (Z.min 255 v)) with 0 by lia. reflexivity.
  - rewrite hass_to_crownstone_state_above by lia.
    replace (Z.max 0 (Z.min 255 v)) with 255 by lia. reflexivity.
  - rewrite hass_to_crownstone_state_floor by lia.
    replace (Z.max 0 (Z.min 255 v)) with v by lia. reflexivity.
Qed.

(** X9: a value outside a scale is clamped to the nearer end of it, neither
    extrapolated nor an error: below 0 both conversions give 0, above 100
    [crownstone_state_to_hass] gives 255, above 255
    [hass_to_crownstone_state] gives 100; in between the fraction is cut
    off.  The statement stays inside the range of the doubles, where the
    conversion of a Python [int] to a float is the rounding [F64.of_int]
    models. *)
Theorem X9_conversions_clamp v :
  Z.abs v < 2 ^ 1023 ->
  crownstone_state_to_hass v = Some (Z.max 0 (Z.min 100 v) * 255 / 100) /\
  hass_to_crownstone_state v = Some (Z.max 0 (Z.min 255 v) * 100 / 255).
Proof.
  intros _. split.
  - apply crownstone_state_to_hass_clamped.
  - apply hass_to_crownstone_state_clamped.
Qed.

Lemma X9_conversions_clamp_witness :
  crownstone_state_to_hass 1000 = Some 255 /\
  hass_to_crownstone_state 1000 = Some 100.
Proof. apply (X9_conversions_clamp 1000). vm_compute. reflexivity. Defined.

(** X10: both conversions are monotone: a larger value never converts to a
    smaller one. *)
Theorem X10_conversions_monotone v w :
  Z.abs v < 2 ^ 1023 -> Z.abs w < 2 ^ 1023 -> v <= w ->
  (exists a b, crownstone_state_to_hass v = Some a /\
               crownstone_state_to_hass w = Some b /\ a <= b) /\
  (exists a b, hass_to_crownstone_state v = Some a /\
               hass_to_crownstone_state w = Some b /\ a <= b).
Proof.
  intros _ _ Hvw.
  rewrite !crownstone_state_to_hass_clamped, !hass_to_crownstone_state_clamped.
  split; eexists _, _; (split; [reflexivity|]); (split; [reflexivity|]);
    apply Z.div_le_mono; lia.
Qed.

Lemma X10_conversions_monotone_witness :
  (exists a b, crownstone_state_to_hass 40 = Some a /\
               crownstone_state_to_hass 41 = Some b /\ a <= b) /\
  (exists a b, hass_to_crownstone_state 40 = Some a /\
               hass_to_crownstone_state 41 = Some b /\ a <= b).
Proof.
  apply (X10_conversions_monotone 40 41);
    [vm_compute; reflexivity | vm_compute; reflexivity | lia].
Defined.

(** X11: different Crownstone states never show as the same brightness:
    on [0,100] [crownstone_state_to_hass] is strictly increasing, by at
    least 2 for each step. *)
Theorem X11_states_show_distinct_brightness v w :
  0 <= v -> v < w -> w <= 100 ->
  exists a b, crownstone_state_to_hass v = Some a /\
              crownstone_state_to_hass w = Some b /\ a + 2 <= b.
Proof.
  intros H0 Hvw H100.
  rewrite !crownstone_state_to_hass_floor by lia.
  eexists _, _. split; [reflexivity|]. split; [reflexivity|].
  pose proof (Z.div_mod (v * 255) 100 ltac:(lia)) as E1.
  pose proof (Z.mod_pos_bound (v * 255) 100 ltac:(lia)) as B1.
  pose proof (Z.div_mod (w * 255) 100 ltac:(lia)) as E2.
  pose proof (Z.mod_pos_bound (w * 255) 100 ltac:(lia)) as B2.
  lia.
Qed.

Lemma X11_states_show_distinct_brightness_witness :
  exists a b, crownstone_state_to_hass 49 = Some a /\
              crownstone_state_to_hass 50 = Some b /\ a + 2 <= b.
Proof. apply (X11_states_show_distinct_brightness 49 50); lia. Defined.

(** X12: every Crownstone state can be asked for: each state of [0,100] is
    [hass_to_crownstone_state] of some brightness of [0,255]. *)
Theorem X12_every_state_reachable s :
  0 <= s <= 100 ->
  exists v, 0 <= v <= 255 /\ hass_to_crownstone_state v = Some s.
Proof.
  intros Hs. exists ((s * 255 + 99) / 100).
  pose proof (Z.div_mod (s * 255 + 99) 100 ltac:(lia)) as E1.
  pose proof (Z.mod_pos_bound (s * 255 + 99) 100 ltac:(lia)) as B1.
  assert (Hv : 0 <= (s * 255 + 99) / 100 <= 255) by lia.
  split; [exact Hv|].
  rewrite hass_to_crownstone_state_floor by exact Hv. f_equal.
  pose proof (Z.div_mod ((s * 255 + 99) / 100 * 100) 255 ltac:(lia)) as E2.
  pose proof (Z.mod_pos_bound ((s * 255 + 99) / 100 * 100) 255 ltac:(lia))
    as B2.
  lia.
Qed.

Lemma X12_every_state_reachable_witness :
  exists v, 0 <= v <= 255 /\ hass_to_crownstone_state v = Some 37.
Proof. apply (X12_every_state_reachable 37). lia. Defined.

(** ** The state attributes *)

(** X13: [device_state_attributes] returns exactly when the Crownstone's
    abilities hold all three of the dimming, tap-to-toggle and switchcraft
    keys; with one missing, the lookup's [None] has no [is_enabled] and the
    property raises [AttributeError]. *)
Theorem X13_state_attributes_need_all_abilities D S T self :
  ((exists attrs,
       LightEntity.device_state_attributes D S T self = Return attrs) <->
   dict_mem String.eqb D (abilities (device self)) = true /\
   dict_mem String.eqb T (abilities (device self)) = true /\
   dict_mem String.eqb S (abilities (device self)) = true) /\
  (forall e,
     LightEntity.device_state_attributes D S T self = Raise e ->
     e = OtherError "AttributeError"
                    "'NoneType' object has no attribute 'is_enabled'").
Proof.
  unfold LightEntity.device_state_attributes, LightEntity.ability_enabled,
    dict_mem.
  destruct (dict_get String.eqb (abilities (device self)) D);
    destruct (dict_get String.eqb (abilities (device self)) T);
    destruct (dict_get String.eqb (abilities (device self)) S);
    (split; [split; [intros [attrs H]; try discriminate; auto
                    | intros (H1 & H2 & H3); try discriminate;
                      eexists; reflexivity]
            | intros e H; try discriminate; now injection H as <-]).
Qed.

Lemma X13_state_attributes_need_all_abilities_witness :
  LightEntity.device_state_attributes "dimming" "switchcraft" "tapToToggle"
    {| device := ceiling; light := cloud_only |} =
  Raise (OtherError "AttributeError"
                    "'NoneType' object has no attribute 'is_enabled'").
Proof.
  destruct (LightEntity.device_state_attributes
              "dimming" "switchcraft" "tapToToggle"
              {| device := ceiling; light := cloud_only |}) as [attrs|e] eqn:E.
  - discriminate E.
  - f_equal.
    apply (proj2 (X13_state_attributes_need_all_abilities
                    "dimming" "switchcraft" "tapToToggle"
                    {| device := ceiling; light := cloud_only |})).
    exact E.
Defined.



(** X15: the "Dimming" attribute and [supported_features] agree: the
    attribute reads "Enabled" when the brightness feature is advertised and
    "Disabled" when no feature is; an ability attribute is never [None]. *)
Theorem X15_dimming_attribute_agrees_with_features D S T SB self attrs :
  LightEntity.device_state_attributes D S T self = Return attrs ->
  (dict_get String.eqb attrs "Dimming"%string = Some (Some "Enabled"%string) /\
   LightEntity.supported_features D SB self = Return SB) \/
  (dict_get String.eqb attrs "Dimming"%string = Some (Some "Disabled"%string) /\
   LightEntity.supported_features D SB self = Return 0).
Proof.
  unfold LightEntity.device_state_attributes, LightEntity.supported_features,
    LightEntity.ability_enabled.
  destruct (dict_get String.eqb (abilities (device self)) D) as [[dim]|];
    [|discriminate].
  destruct (dict_get String.eqb (abilities (device self)) T);
    [|discriminate].
  destruct (dict_get String.eqb (abilities (device self)) S);
    [|discriminate].
  intros H. injection H as <-.
  destruct dim; destruct (usb_is_ready (light self));
    [left|left|right|right]; split; reflexivity.
Qed.

Lemma X15_dimming_attribute_agrees_with_features_witness :
  (dict_get String.eqb
     [("Switch Method"%string, Some "Crownstone Cloud"%string);
      ("Dimming"%string, Some "Enabled"%string);
      ("Tap To Toggle"%string, Some "Disabled"%string);
      ("Switchcraft"%string, Some "Disabled"%string)]
     "Dimming"%string = Some (Some "Enabled"%string) /\
   LightEntity.supported_features "dimming" 1
     {| device := lamp; light := cloud_only |} = Return 1) \/
  (dict_get String.eqb
     [("Switch Method"%string, Some "Crownstone Cloud"%string);
      ("Dimming"%string, Some "Enabled"%string);
      ("Tap To Toggle"%string, Some "Disabled"%string);
      ("Switchcraft"%string, Some "Disabled"%string)]
     "Dimming"%string = Some (Some "Disabled"%string) /\
   LightEntity.supported_features "dimming" 1
     {| device := lamp; light := cloud_only |} = Return 0).
Proof.
  apply (X15_dimming_attribute_agrees_with_features
           "dimming" "switchcraft" "tapToToggle" 1
           {| device := lamp; light := cloud_only |}).
  reflexivity.
Defined.

(** ** More on the commands *)

(** X16: only the brightness branch has an [except] clause: a
    [CrownstoneAbilityError] raised by the operation of a plain [turn_on]
    or of [turn_off] is raised to the caller, nothing is logged and the
    device is as it was. *)
Theorem X16_ability_error_escapes_switching env self d cmd c msg :
  cmd = turn_on \/ cmd = turn_off ->
  In (Call c) (events_of (run env self cmd d)) ->
  env c = Some (CrownstoneAbilityError msg) ->
  result_of (run env self cmd d) = Raise (CrownstoneAbilityError msg) /\
  device_of (run env self cmd d) = d /\
  events_of (run env self cmd d) = [Call c].
Proof.
  intros Hcmd Hin Henv.
  assert (Hr : in_range cmd) by (destruct Hcmd; subst; exact I).
  assert (Hcaught : forall e, caught cmd e = false)
    by (destruct Hcmd; subst; reflexivity).
  destruct (run_spec env self d cmd Hr) as (c0 & t & _ & _ & _ & Hrun).
  rewrite Hrun in *.
  assert (Hc : c = c0).
  { destruct (env c0) as [e0|]; [rewrite Hcaught in Hin|];
      simpl in Hin; intuition congruence. }
  subst c0. rewrite Henv, Hcaught. repeat split.
Qed.

Lemma X16_ability_error_escapes_switching_witness :
  result_of (run ability_disabled cloud_only turn_on plug) =
    Raise (CrownstoneAbilityError "dimming is not enabled") /\
  device_of (run ability_disabled cloud_only turn_on plug) = plug /\
  events_of (run ability_disabled cloud_only turn_on plug) =
    [Call device_async_turn_on].
Proof.
  apply (X16_ability_error_escapes_switching ability_disabled cloud_only
           plug turn_on device_async_turn_on "dimming is not enabled").
  - left. reflexivity.
  - vm_compute. left. reflexivity.
  - reflexivity.
Defined.

(** X17: the [except] clause covers the dongle as well: when the entity
    dims through a ready dongle and [dim_crownstone] raises
    [CrownstoneAbilityError], the command returns, the error is logged, the
    device is as it was and no state is written; the dongle was addressed
    by the device's own uid with the converted level. *)
Theorem X17_dongle_ability_error_swallowed env self d level msg :
  0 <= level <= 255 ->
  usb_is_ready self = true ->
  env (dim_crownstone (unique_id d) (level * 100 / 255)) =
    Some (CrownstoneAbilityError msg) ->
  run env self (set_brightness level) d =
    (Return tt, d,
     [Call (dim_crownstone (unique_id d) (level * 100 / 255));
      LoggerError (CrownstoneAbilityError msg)]).
Proof.
  intros Hr Hu Henv.
  rewrite (run_set_brightness env self d level _
             (hass_to_crownstone_state_floor level Hr)).
  rewrite Hu. cbv zeta. rewrite Henv. reflexivity.
Qed.

Lemma X17_dongle_ability_error_swallowed_witness :
  run ability_disabled with_dongle (set_brightness 128) plug =
    (Return tt, plug,
     [Call (dim_crownstone 7 (128 * 100 / 255));
      LoggerError (CrownstoneAbilityError "dimming is not enabled")]).
Proof.
  apply (X17_dongle_ability_error_swallowed ability_disabled with_dongle
           plug 128 "dimming is not enabled").
  - lia.
  - reflexivity.
  - reflexivity.
Defined.

(** X18: a command changes nothing of the device but its state, and keeps
    the state on the Crownstone scale: from a state in [0,100] every
    command, however its operation ends, leaves a state in [0,100], with
    the uid and the dimming setting it found. *)
Theorem X18_commands_keep_state_on_scale env self d cmd :
  in_range cmd ->
  0 <= state d <= 100 ->
  0 <= state (device_of (run env self cmd d)) <= 100 /\
  unique_id (device_of (run env self cmd d)) = unique_id d /\
  dimming_enabled (device_of (run env self cmd d)) = dimming_enabled d.
Proof.
  intros Hr Hs.
  destruct (run_spec env self d cmd Hr) as (c & t & Ht & _ & _ & Hrun).
  rewrite Hrun.
  assert (Hrange : 0 <= t <= 100).
  { destruct cmd as [| |level]; simpl in Ht.
    - injection Ht as <-. lia.
    - injection Ht as <-. lia.
    - simpl in Hr. rewrite (hass_to_crownstone_state_floor level Hr) in Ht.
      injection Ht as <-.
      split; [apply Z.div_pos; lia | apply Z.div_le_upper_bound; lia]. }
  destruct (env c) as [e|]; [destruct (caught cmd e)|]; simpl; auto.
Qed.

Lemma X18_commands_keep_state_on_scale_witness :
  0 <= state (device_of (run all_return with_dongle (set_brightness 255) plug))
    <= 100 /\
  unique_id (device_of (run all_return with_dongle (set_brightness 255) plug))
    = unique_id plug /\
  dimming_enabled
    (device_of (run all_return with_dongle (set_brightness 255) plug))
    = dimming_enabled plug.
Proof.
  apply (X18_commands_keep_state_on_scale all_return with_dongle plug
           (set_brightness 255)); simpl; lia.
Defined.

(** What a command leaves when its operation returns. *)
Lemma device_after_return env self d cmd :
  in_range cmd -> (forall c, env c = None) ->
  exists t, target_state cmd = Some t /\
            device_of (run env self cmd d) = set_state d t.
Proof.
  intros Hr Henv.
  destruct (run_spec env self d cmd Hr) as (c & t & Ht & _ & _ & Hrun).
  exists t. split; [exact Ht|]. rewrite Hrun, Henv. reflexivity.
Qed.

(** X19: the lowest brightness levels switch the light off: after a
    [set_brightness] whose operation returned, [is_on] is true exactly for
    a level of 3 or more; levels 1 and 2 convert to the state 0. *)
Theorem X19_low_levels_switch_off env self d level :
  0 <= level <= 255 ->
  (forall c, env c = None) ->
  is_on (device_of (run env self (set_brightness level) d)) =
    Some (3 <=? level).
Proof.
  intros Hr Henv.
  destruct (device_after_return env self d (set_brightness level) Hr Henv)
    as (t & Ht & ->).
  simpl in Ht. rewrite (hass_to_crownstone_state_floor level Hr) in Ht.
  injection Ht as <-.
  unfold is_on. simpl state.
  pose proof (Z.div_mod (level * 100) 255 ltac:(lia)) as E1.
  pose proof (Z.mod_pos_bound (level * 100) 255 ltac:(lia)) as B1.
  rewrite crownstone_state_to_hass_floor by lia. simpl option_map. f_equal.
  pose proof (Z.div_mod (level * 100 / 255 * 255) 100 ltac:(lia)) as E2.
  pose proof (Z.mod_pos_bound (level * 100 / 255 * 255) 100 ltac:(lia)) as B2.
  destruct (Z.leb_spec 3 level);
    destruct (Z.gtb_spec (level * 100 / 255 * 255 / 100) 0);
    try reflexivity; lia.
Qed.

Lemma X19_low_levels_switch_off_witness :
  is_on (device_of (run all_return cloud_only (set_brightness 2) plug)) =
    Some (3 <=? 2).
Proof.
  apply (X19_low_levels_switch_off all_return cloud_only plug 2);
    [lia | reflexivity].
Defined.

(** X20: what [brightness] reads after a command whose operation
    returned: 255 after [turn_on], 0 after [turn_off], and after
    [set_brightness] a value that is never above the level asked for and
    at most 3 below it. *)
Theorem X20_brightness_after_command env self d cmd :
  in_range cmd ->
  (forall c, env c = None) ->
  exists b,
    brightness (device_of (run env self cmd d)) = Some b /\
    match cmd with
    | turn_on => b = 255
    | turn_off => b = 0
    | set_brightness level => level - 3 <= b <= level
    end.
Proof.
  intros Hr Henv.
  destruct (device_after_return env self d cmd Hr Henv) as (t & Ht & ->).
  unfold brightness. simpl state.
  destruct cmd as [| |level]; simpl in Ht.
  - injection Ht as <-. exists 255. split; reflexivity.
  - injection Ht as <-. exists 0. split; reflexivity.
  - simpl in Hr. rewrite (hass_to_crownstone_state_floor level Hr) in Ht.
    injection Ht as <-.
    pose proof (Z.div_mod (level * 100) 255 ltac:(lia)) as E1.
    pose proof (Z.mod_pos_bound (level * 100) 255 ltac:(lia)) as B1.
    rewrite crownstone_state_to_hass_floor by lia.
    eexists. split; [reflexivity|].
    pose proof (Z.div_mod (level * 100 / 255 * 255) 100 ltac:(lia)) as E2.
    pose proof (Z.mod_pos_bound (level * 100 / 255 * 255) 100 ltac:(lia))
      as B2.
    lia.
Qed.

Lemma X20_brightness_after_command_witness :
  exists b,
    brightness (device_of (run all_return cloud_only (set_brightness 200) plug))
      = Some b /\
    200 - 3 <= b <= 200.
Proof.
  apply (X20_brightness_after_command all_return cloud_only plug
           (set_brightness 200)); [simpl; lia | reflexivity].
Defined.

(** ** The serial port helpers *)

(** The loop of [get_serial_by_id] is a search for the first link that
    resolves to the device. *)
Lemma get_serial_by_id_find fs dev_path :
  get_serial_by_id fs dev_path =
  if negb (Os.isdir fs "/dev/serial/by-id") then dev_path
  else match find (fun p => String.eqb (Os.realpath fs p) dev_path)
                  (map Os.path
                       (filter Os.is_symlink
                               (Os.scandir fs "/dev/serial/by-id"))) with
       | Some p => p
       | None => dev_path
       end.
Proof.
  unfold get_serial_by_id.
  destruct (negb (Os.isdir fs "/dev/serial/by-id")); [reflexivity|].
  induction (map Os.path
               (filter Os.is_symlink (Os.scandir fs "/dev/serial/by-id")))
    as [|p l IH]; simpl; [reflexivity|].
  destruct (String.eqb (Os.realpath fs p) dev_path); [reflexivity | exact IH].
Qed.

(** X21: [get_serial_by_id] hands back the device path itself or a stable
    name for the same device: a symbolic link listed in /dev/serial/by-id
    whose real path is the device path. *)
Theorem X21_serial_by_id_resolves_to_the_device fs dev_path :
  get_serial_by_id fs dev_path = dev_path \/
  (Os.isdir fs "/dev/serial/by-id" = true /\
   Os.realpath fs (get_serial_by_id fs dev_path) = dev_path /\
   exists entry,
     In entry (Os.scandir fs "/dev/serial/by-id") /\
     Os.is_symlink entry = true /\
     Os.path entry = get_serial_by_id fs dev_path).
Proof.
  rewrite !get_serial_by_id_find.
  destruct (Os.isdir fs "/dev/serial/by-id"); simpl; [|now left].
  destruct (find _ _) as [p|] eqn:E; [right|now left].
  apply find_some in E. destruct E as [Hin Heq].
  apply String.eqb_eq in Heq.
  apply in_map_iff in Hin. destruct Hin as (entry & Hp & Hin).
  apply filter_In in Hin. destruct Hin as [Hin Hsym].
  split; [reflexivity|]. split; [exact Heq|].
  exists entry. auto.
Qed.

(** X22: when /dev/serial/by-id is a directory, the first symbolic link in
    it that resolves to the device is the answer; entries that are not
    symbolic links are passed over. *)
Theorem X22_serial_by_id_takes_first_link fs dev_path before entry after :
  Os.isdir fs "/dev/serial/by-id" = true ->
  Os.scandir fs "/dev/serial/by-id" = before ++ entry :: after ->
  Os.is_symlink entry = true ->
  Os.realpath fs (Os.path entry) = dev_path ->
  (forall e, In e before -> Os.is_symlink e = true ->
             Os.realpath fs (Os.path e) <> dev_path) ->
  get_serial_by_id fs dev_path = Os.path entry.
Proof.
  intros Hdir Hscan Hsym Hreal Hbefore.
  rewrite get_serial_by_id_find, Hdir, Hscan. simpl negb. cbv iota.
  rewrite filter_app, map_app. clear Hscan. revert Hbefore.
  induction before as [|e before IH]; intros Hbefore; simpl.
  - rewrite Hsym. simpl. rewrite Hreal, String.eqb_refl. reflexivity.
  - destruct (Os.is_symlink e) eqn:Es; simpl.
    + assert (Hne : String.eqb (Os.realpath fs (Os.path e)) dev_path = false).
      { apply String.eqb_neq. apply Hbefore; [now left | exact Es]. }
      rewrite Hne. apply IH. intros e' He'. apply Hbefore. now right.
    + apply IH. intros e' He'. apply Hbefore. now right.
Qed.

Lemma X22_serial_by_id_takes_first_link_witness :
  get_serial_by_id sample_fs "/dev/ttyUSB0" =
  "/dev/serial/by-id/usb-Crownstone_dongle-if00"%string.
Proof.
  apply (X22_serial_by_id_takes_first_link sample_fs "/dev/ttyUSB0"
           [{| Os.path := "/dev/serial/by-id/README";
               Os.is_symlink := false |}]
           {| Os.path := "/dev/serial/by-id/usb-Crownstone_dongle-if00";
              Os.is_symlink := true |}
           []).
  - reflexivity.
  - reflexivity.
  - reflexivity.
  - reflexivity.
  - intros e [<-|[]] Hs. discriminate Hs.
Defined.

Lemma rfind_ge s c : -1 <= Os.rfind s c.
Proof.
  induction s as [|a s IH]; simpl; [lia|].
  destruct (Z.leb_spec 0 (Os.rfind s c)); [lia|].
  destruct (Ascii.eqb a c); lia.
Qed.

Lemma substring_all s : substring 0 (String.length s) s = s.
Proof. induction s as [|a s IH]; simpl; [reflexivity | now rewrite IH]. Qed.

(** [basename] by the first character of the path. *)
Lemma basename_cons a s :
  Os.basename (String a s) =
  if 0 <=? Os.rfind s "/" then Os.basename s
  else if Ascii.eqb a "/" then s else String a s.
Proof.
  unfold Os.basename, Os.slice_from. cbn [Os.rfind].
  pose proof (rfind_ge s "/") as Hge.
  destruct (Z.leb_spec 0 (Os.rfind s "/")) as [Hr|Hr].
  - replace (Z.to_nat (Os.rfind s "/" + 1 + 1))
      with (S (Z.to_nat (Os.rfind s "/" + 1))) by lia.
    reflexivity.
  - destruct (Ascii.eqb a "/").
    + change (Z.to_nat (0 + 1)) with 1%nat. cbn [String.length substring].
      rewrite Nat.sub_succ, Nat.sub_0_r. apply substring_all.
    + change (Z.to_nat (-1 + 1)) with 0%nat. rewrite Nat.sub_0_r.
      cbn [String.length substring]. now rewrite substring_all.
Qed.

Lemma basename_no_slash p : Os.rfind (Os.basename p) "/" = -1.
Proof.
  induction p as [|a p IH]; [reflexivity|].
  rewrite basename_cons. pose proof (rfind_ge p "/") as Hge.
  destruct (Z.leb_spec 0 (Os.rfind p "/")) as [Hr|Hr]; [exact IH|].
  destruct (Ascii.eqb a "/") eqn:Ea; [lia|].
  cbn [Os.rfind]. rewrite Ea.
  destruct (Z.leb_spec 0 (Os.rfind p "/")); [lia | reflexivity].
Qed.

Lemma rfind_slash_app d s : 0 <= Os.rfind (d ++ String "/" s) "/".
Proof.
  induction d as [|a d IH]; cbn [append Os.rfind].
  - pose proof (rfind_ge s "/").
    destruct (Z.leb_spec 0 (Os.rfind s "/")); [lia|]. simpl. lia.
  - destruct (Z.leb_spec 0 (Os.rfind (d ++ String "/" s) "/")); lia.
Qed.

Lemma basename_join d n :
  Os.rfind n "/" = -1 -> Os.basename (d ++ String "/" n) = n.
Proof.
  intros Hn. induction d as [|a d IH]; cbn [append]; rewrite basename_cons.
  - rewrite Hn. reflexivity.
  - pose proof (rfind_slash_app d n).
    destruct (Z.leb_spec 0 (Os.rfind (d ++ String "/" n) "/")); [exact IH|lia].
Qed.

(** X23: [get_port] names the device the link points to: when the link's
    target is a directory part, a slash and a name without slashes, the
    port is that name. *)
Theorem X23_get_port_names_the_device fs by_id dir n :
  Os.readlink fs by_id = Return (dir ++ "/" ++ n)%string ->
  Os.rfind n "/" = -1 ->
  get_port fs by_id = Return (Some n).
Proof.
  intros Hlink Hn. unfold get_port. rewrite Hlink.
  change (dir ++ "/" ++ n)%string with (dir ++ String "/" n)%string.
  now rewrite basename_join.
Qed.

Lemma X23_get_port_names_the_device_witness :
  get_port sample_fs "/dev/serial/by-id/usb-Crownstone_dongle-if00" =
  Return (Some "ttyUSB0"%string).
Proof.
  apply (X23_get_port_names_the_device sample_fs
           "/dev/serial/by-id/usb-Crownstone_dongle-if00" "../.." "ttyUSB0");
    reflexivity.
Defined.

(** X24: how [get_port] ends: it answers [None] exactly when reading the
    link raised [FileNotFoundError]; every other error of [os.readlink] is
    raised to the caller; and a port it returns holds no slash. *)
Theorem X24_get_port_outcomes fs by_id :
  (get_port fs by_id = Return None <->
   exists msg,
     Os.readlink fs by_id = Raise (OtherError "FileNotFoundError" msg)) /\
  (forall e, Os.readlink fs by_id = Raise e ->
             is_file_not_found e = false ->
             get_port fs by_id = Raise e) /\
  (forall port, get_port fs by_id = Return (Some port) ->
                Os.rfind port "/" = -1).
Proof.
  unfold get_port.
  destruct (Os.readlink fs by_id) as [target|e]; repeat split.
  - discriminate.
  - intros [msg H]. discriminate.
  - discriminate.
  - intros port H. injection H as <-. apply basename_no_slash.
  - destruct e as [msg|cls msg]; simpl; [discriminate|].
    destruct (String.eqb_spec cls "FileNotFoundError") as [->|Hne];
      [intros _; now exists msg | discriminate].
  - intros [msg H]. injection H as ->. reflexivity.
  - intros e' H Hf. injection H as <-. now rewrite Hf.
  - intros port H. destruct (is_file_not_found e); discriminate.
Qed.

Lemma X24_get_port_outcomes_witness :
  get_port sample_fs "/dev/serial/by-id/usb-gone" = Return None.
Proof.
  apply (proj2 (proj1 (X24_get_port_outcomes sample_fs
                         "/dev/serial/by-id/usb-gone"))).
  exists "No such file or directory"%string. reflexivity.
Defined.
